(** * The dashboard's state-reconciliation core

    A shallow embedding of [frontend/src/components/Dashboard.jsx]: the six
    React state variables, the [ws] ref, the snapshot effect ([fetchData])
    and the WebSocket effect ([connectWebSocket], its three handlers and the
    effect cleanup).  Of what only reads the state, the two chart components
    and the header and the cards of the layout are modelled at the end; the
    list of posts of the layout is not.

    What the host provides is modelled as follows.
    - JavaScript values are [JSValue]; property access follows the language
      (reading a property of [undefined] or [null] throws a [TypeError]).
    - An exception is a [Completion]; every handler is a computation in the
      state-and-exception monad [M].
    - Time is a millisecond counter; every event says how long after the
      previous one it happens.
    - [JSON.parse] is a builtin: a received frame is given by what the builtin
      does on its text ([NotJSON] or [JSONText v]).
    - A state setter called after the component was unmounted does nothing,
      as React specifies. *)

From Stdlib Require Import ZArith NArith String Ascii DecimalString.
From stdpp Require Import base option list.

Set Warnings "-register-all".
Local Open Scope string_scope.
Local Open Scope list_scope.
Local Open Scope N_scope.

(** ** JavaScript values *)

(** The values [JSON.parse] and property reads produce.  The handlers store
    and move numbers and never compute with them; the counts the properties
    speak about are integers, so [JNum] carries an integer. *)
Inductive JSValue : Type :=
| JUndefined
| JNull
| JBool (b : bool)
| JNum (n : Z)
| JStr (s : string)
| JArr (items : list JSValue)
| JObj (fields : list (string * JSValue)).

Inductive JSError : Type :=
| SyntaxError
| TypeError
| AxiosError.

Inductive Completion (A : Type) : Type :=
| Normal (a : A)
| Throw (e : JSError).
Arguments Normal {A} a.
Arguments Throw {A} e.

Module JS.

Fixpoint lookup_field (k : string) (fs : list (string * JSValue)) : option JSValue :=
  match fs with
  | [] => None
  | (k', v) :: fs' => if String.eqb k k' then Some v else lookup_field k fs'
  end.

(** [o.k] for the property names the source reads ([type], [data],
    [last_24_hours], [positive], [negative], [neutral], [distribution],
    [total], [posts], [timestamp]); none of them is a builtin property of
    arrays, strings, numbers or booleans, so there the result is
    [undefined]. *)
Definition get (o : JSValue) (k : string) : Completion JSValue :=
  match o with
  | JUndefined | JNull => Throw TypeError
  | JObj fs => Normal (default JUndefined (lookup_field k fs))
  | _ => Normal JUndefined
  end.

(** [o[k] = v] on the fields of an object literal under construction: an
    existing key keeps its place. *)
Fixpoint set_field (k : string) (v : JSValue) (fs : list (string * JSValue))
  : list (string * JSValue) :=
  match fs with
  | [] => [(k, v)]
  | (k', v') :: fs' =>
      if String.eqb k k' then (k', v) :: fs' else (k', v') :: set_field k v fs'
  end.

Definition index_key (i : nat) : string := NilZero.string_of_uint (Nat.to_uint i).

Definition indexed (vs : list JSValue) : list (string * JSValue) :=
  imap (fun i v => (index_key i, v)) vs.

(** The one-character strings of [s]. *)
Definition chars (s : string) : list JSValue :=
  map (fun c => JStr (String c EmptyString)) (list_ascii_of_string s).

(** The own enumerable properties copied by [{...v}]. *)
Definition spread_props (v : JSValue) : list (string * JSValue) :=
  match v with
  | JObj fs => fs
  | JArr vs => indexed vs
  | JStr s => indexed (chars s)
  | _ => []
  end.

(** The elements produced by [[...v]]; [None] when [v] is not iterable. *)
Definition spread_items (v : JSValue) : option (list JSValue) :=
  match v with
  | JArr vs => Some vs
  | JStr s => Some (chars s)
  | _ => None
  end.

(** [v === s] for a string literal [s]. *)
Definition strict_eq_str (v : JSValue) (s : string) : bool :=
  match v with
  | JStr s' => String.eqb s' s
  | _ => false
  end.

(** [a.slice(0, n)] *)
Definition slice0 (n : nat) (a : list JSValue) : list JSValue := firstn n a.

End JS.

Arguments JS.slice0 : simpl never.

(** ** The state *)

(** [connectionStatus] holds one of three strings. *)
Inductive ConnectionStatus : Type := connecting | connected | disconnected.

(** [WebSocket.readyState] *)
Inductive ReadyState : Type := CONNECTING | OPEN | CLOSING | CLOSED.

(** The three URLs read by [fetchData]:
    [/sentiment/distribution?hours=24], [/sentiment/aggregate?period=hour]
    and [/posts?limit=50]. *)
Inductive Endpoint : Type := Distribution24h | AggregateHourly | Posts50.

(** One entry of [distributionData]: [{ name, value }]. *)
Record DistRow : Type := { name : string; value : JSValue }.

(** The six [useState] variables. *)
Record ViewModel : Type := {
  distributionData : list DistRow;
  trendData : list JSValue;
  recentPosts : JSValue;
  metrics : JSValue;
  connectionStatus : ConnectionStatus;
  lastUpdate : N
}.

(** Where the [async] function [fetchData] is suspended, with the locals
    ([distRes.data] and [dist]) that the rest of its body still reads;
    [FetchIdle] before the call and once the function has returned. *)
Inductive FetchState : Type :=
| AwaitDistribution
| AwaitTrend (distData dist : JSValue)
| AwaitPosts (distData dist : JSValue)
| FetchIdle.

Inductive LogEntry : Type :=
| ConsoleLog (msg : string)
| ConsoleError (msg : string) (err : JSError)
| Uncaught (err : JSError).

(** The component instance together with the host resources its effects
    own: the sockets created so far (a socket is named by its position),
    the pending [setTimeout] callbacks (by due time; all of them are
    [connectWebSocket]), the requests sent, and the console. *)
Record Dashboard : Type := {
  view : ViewModel;
  mounted : bool;
  ws_current : option nat;
  sockets : list ReadyState;
  timers : list N;
  fetch : FetchState;
  requests : list Endpoint;
  console : list LogEntry;
  clock : N
}.

Definition with_view (f : ViewModel -> ViewModel) (st : Dashboard) : Dashboard :=
  {| view := f (view st); mounted := mounted st; ws_current := ws_current st;
     sockets := sockets st; timers := timers st; fetch := fetch st;
     requests := requests st; console := console st; clock := clock st |}.

Definition with_mounted (b : bool) (st : Dashboard) : Dashboard :=
  {| view := view st; mounted := b; ws_current := ws_current st;
     sockets := sockets st; timers := timers st; fetch := fetch st;
     requests := requests st; console := console st; clock := clock st |}.

Definition with_ws_current (r : option nat) (st : Dashboard) : Dashboard :=
  {| view := view st; mounted := mounted st; ws_current := r;
     sockets := sockets st; timers := timers st; fetch := fetch st;
     requests := requests st; console := console st; clock := clock st |}.

Definition with_sockets (ss : list ReadyState) (st : Dashboard) : Dashboard :=
  {| view := view st; mounted := mounted st; ws_current := ws_current st;
     sockets := ss; timers := timers st; fetch := fetch st;
     requests := requests st; console := console st; clock := clock st |}.

Definition with_timers (ts : list N) (st : Dashboard) : Dashboard :=
  {| view := view st; mounted := mounted st; ws_current := ws_current st;
     sockets := sockets st; timers := ts; fetch := fetch st;
     requests := requests st; console := console st; clock := clock st |}.

Definition with_fetch (pc : FetchState) (st : Dashboard) : Dashboard :=
  {| view := view st; mounted := mounted st; ws_current := ws_current st;
     sockets := sockets st; timers := timers st; fetch := pc;
     requests := requests st; console := console st; clock := clock st |}.

Definition with_requests (rs : list Endpoint) (st : Dashboard) : Dashboard :=
  {| view := view st; mounted := mounted st; ws_current := ws_current st;
     sockets := sockets st; timers := timers st; fetch := fetch st;
     requests := rs; console := console st; clock := clock st |}.

Definition with_console (c : list LogEntry) (st : Dashboard) : Dashboard :=
  {| view := view st; mounted := mounted st; ws_current := ws_current st;
     sockets := sockets st; timers := timers st; fetch := fetch st;
     requests := requests st; console := c; clock := clock st |}.

Definition with_clock (t : N) (st : Dashboard) : Dashboard :=
  {| view := view st; mounted := mounted st; ws_current := ws_current st;
     sockets := sockets st; timers := timers st; fetch := fetch st;
     requests := requests st; console := console st; clock := t |}.

(** ** Computations *)

Definition M (A : Type) : Type := Dashboard -> Dashboard * Completion A.

Definition ret {A} (a : A) : M A := fun st => (st, Normal a).

Definition bind {A B} (m : M A) (k : A -> M B) : M B :=
  fun st =>
    match m st with
    | (st', Normal a) => k a st'
    | (st', Throw e) => (st', Throw e)
    end.

Definition throw {A} (e : JSError) : M A := fun st => (st, Throw e).

(** [try { body } catch (err) { handler(err) }] *)
Definition try_catch {A} (body : M A) (handler : JSError -> M A) : M A :=
  fun st =>
    match body st with
    | (st', Normal a) => (st', Normal a)
    | (st', Throw e) => handler e st'
    end.

Definition lift {A} (c : Completion A) : M A := fun st => (st, c).

Definition modify (f : Dashboard -> Dashboard) : M unit := fun st => (f st, Normal tt).

Definition read {A} (f : Dashboard -> A) : M A := fun st => (st, Normal (f st)).

Notation "'let*' x ':=' m 'in' k" := (bind m (fun x => k))
  (at level 10, x name, m at level 100, k at level 200).
Notation "m '>>' k" := (bind m (fun _ => k))
  (at level 100, k at level 200, right associativity).

(** Sequencing of pure evaluations that may throw. *)
Definition and_then {A B} (c : Completion A) (k : A -> Completion B) : Completion B :=
  match c with
  | Normal a => k a
  | Throw e => Throw e
  end.

Fixpoint map_throwing (f : JSValue -> Completion JSValue) (vs : list JSValue)
  : Completion (list JSValue) :=
  match vs with
  | [] => Normal []
  | v :: vs' =>
      and_then (f v) (fun w => and_then (map_throwing f vs') (fun ws => Normal (w :: ws)))
  end.

(** ** Host operations *)

Definition console_log (msg : string) : M unit :=
  modify (fun st => with_console (console st ++ [ConsoleLog msg]) st).

Definition console_error (msg : string) (err : JSError) : M unit :=
  modify (fun st => with_console (console st ++ [ConsoleError msg err]) st).

(** [axios.get(url)]: the request leaves. *)
Definition axios_get (ep : Endpoint) : M unit :=
  modify (fun st => with_requests (requests st ++ [ep]) st).

(** [await] on the promise of a request: [Some d] resolves it with a
    response whose [data] is [d], [None] rejects it. *)
Definition await (r : option JSValue) : M JSValue :=
  match r with
  | Some d => ret d
  | None => throw AxiosError
  end.

(** What [JSON.parse] does on the text of a frame. *)
Inductive MessageData : Type :=
| NotJSON (text : string)
| JSONText (v : JSValue).

Definition JSON_parse (d : MessageData) : M JSValue :=
  match d with
  | NotJSON _ => throw SyntaxError
  | JSONText v => ret v
  end.

(** [setTimeout(connectWebSocket, delay)] *)
Definition setTimeout_connectWebSocket (delay : N) : M unit :=
  modify (fun st => with_timers (timers st ++ [clock st + delay]) st).

(** [new WebSocket(WS_URL)] appends a socket in state [CONNECTING]. *)
Definition new_WebSocket : M nat :=
  let* ss := read sockets in
  modify (with_sockets (ss ++ [CONNECTING])) >>
  ret (length ss).

(** [socket.close()] *)
Definition close_socket (i : nat) (ss : list ReadyState) : list ReadyState :=
  match ss !! i with
  | Some CONNECTING | Some OPEN => <[i:=CLOSING]> ss
  | _ => ss
  end.

(** ** State setters *)

Definition set_state (f : ViewModel -> ViewModel) : M unit :=
  modify (fun st => if mounted st then with_view f st else st).

Definition put_distributionData (rows : list DistRow) (v : ViewModel) : ViewModel :=
  {| distributionData := rows; trendData := trendData v;
     recentPosts := recentPosts v; metrics := metrics v;
     connectionStatus := connectionStatus v; lastUpdate := lastUpdate v |}.

Definition put_trendData (t : list JSValue) (v : ViewModel) : ViewModel :=
  {| distributionData := distributionData v; trendData := t;
     recentPosts := recentPosts v; metrics := metrics v;
     connectionStatus := connectionStatus v; lastUpdate := lastUpdate v |}.

Definition put_recentPosts (p : JSValue) (v : ViewModel) : ViewModel :=
  {| distributionData := distributionData v; trendData := trendData v;
     recentPosts := p; metrics := metrics v;
     connectionStatus := connectionStatus v; lastUpdate := lastUpdate v |}.

Definition put_metrics (m : JSValue) (v : ViewModel) : ViewModel :=
  {| distributionData := distributionData v; trendData := trendData v;
     recentPosts := recentPosts v; metrics := m;
     connectionStatus := connectionStatus v; lastUpdate := lastUpdate v |}.

Definition put_connectionStatus (c : ConnectionStatus) (v : ViewModel) : ViewModel :=
  {| distributionData := distributionData v; trendData := trendData v;
     recentPosts := recentPosts v; metrics := metrics v;
     connectionStatus := c; lastUpdate := lastUpdate v |}.

Definition put_lastUpdate (t : N) (v : ViewModel) : ViewModel :=
  {| distributionData := distributionData v; trendData := trendData v;
     recentPosts := recentPosts v; metrics := metrics v;
     connectionStatus := connectionStatus v; lastUpdate := t |}.

Definition setDistributionData (rows : list DistRow) : M unit :=
  set_state (put_distributionData rows).

Definition setTrendData (t : list JSValue) : M unit := set_state (put_trendData t).

Definition setRecentPosts (p : JSValue) : M unit := set_state (put_recentPosts p).

Definition setMetrics (m : JSValue) : M unit := set_state (put_metrics m).

Definition setConnectionStatus (c : ConnectionStatus) : M unit :=
  set_state (put_connectionStatus c).

Definition setLastUpdate (t : N) : M unit := set_state (put_lastUpdate t).

(** ** The WebSocket effect *)

(** The effect cleanup: [if (ws.current) ws.current.close();] *)
Definition cleanup : M unit :=
  let* cur := read ws_current in
  match cur with
  | Some i => modify (fun st => with_sockets (close_socket i (sockets st)) st)
  | None => ret tt
  end.

(** Unmounting the component runs the cleanup of its effects; [fetchData]'s
    effect returns none. *)
Definition unmount : M unit :=
  modify (with_mounted false) >> cleanup.

(** [setRecentPosts(updater)].  React runs the updater on the current value.
    The component sits under no error boundary, so an exception from the
    updater unmounts it. *)
Definition setRecentPosts_with (updater : JSValue -> Completion JSValue) : M unit :=
  let* up := read mounted in
  if up : bool then
    let* prev := read (fun st => recentPosts (view st)) in
    match updater prev with
    | Normal next => setRecentPosts next
    | Throw _ => unmount
    end
  else ret tt.

Definition distribution_rows (p n u : JSValue) : list DistRow :=
  [ {| name := "Positive"; value := p |};
    {| name := "Negative"; value := n |};
    {| name := "Neutral"; value := u |} ].

(** [ws.current.onopen] *)
Definition onopen : M unit :=
  setConnectionStatus connected >>
  console_log "Connected to WebSocket".

(** [ws.current.onclose] *)
Definition onclose : M unit :=
  setConnectionStatus disconnected >>
  setTimeout_connectWebSocket 3000.

(** [prev => [message.data, ...prev].slice(0, 50)] *)
Definition prepend_post (message prev : JSValue) : Completion JSValue :=
  and_then (JS.get message "data") (fun post =>
    match JS.spread_items prev with
    | Some items => Normal (JArr (JS.slice0 50 (post :: items)))
    | None => Throw TypeError
    end).

(** [ws.current.onmessage] *)
Definition onmessage (event_data : MessageData) : M unit :=
  let* message := JSON_parse event_data in
  let* now := read clock in
  setLastUpdate now >>
  let* type := lift (JS.get message "type") in
  if JS.strict_eq_str type "new_post" then
    setRecentPosts_with (prepend_post message)
  else if JS.strict_eq_str type "metrics_update" then
    let* message_data := lift (JS.get message "data") in
    let* data := lift (JS.get message_data "last_24_hours") in
    setMetrics data >>
    let* p := lift (JS.get data "positive") in
    let* n := lift (JS.get data "negative") in
    let* u := lift (JS.get data "neutral") in
    setDistributionData (distribution_rows p n u)
  else ret tt.

(** [connectWebSocket]: the new socket is stored in [ws.current] and gets
    the three handlers above, so every socket of [sockets] carries them. *)
Definition connectWebSocket : M unit :=
  let* s := new_WebSocket in
  modify (with_ws_current (Some s)).

(** ** The snapshot effect *)

(** [item => ({ ...item, timestamp: item.timestamp })] *)
Definition trend_item (item : JSValue) : Completion JSValue :=
  and_then (JS.get item "timestamp") (fun ts =>
    Normal (JObj (JS.set_field "timestamp" ts (JS.spread_props item)))).

(** [a.map(f)]: calling [map] on anything but an array is a [TypeError]. *)
Definition array_map (f : JSValue -> Completion JSValue) (a : JSValue)
  : Completion (list JSValue) :=
  match a with
  | JArr items => map_throwing f items
  | _ => Throw TypeError
  end.

(** The [catch] block of [fetchData]. *)
Definition fetchData_catch (err : JSError) : M unit :=
  console_error "Failed to fetch initial data:" err >>
  modify (with_fetch FetchIdle).

(** From the call of [fetchData] to its first [await]. *)
Definition fetchData : M unit :=
  axios_get Distribution24h >>
  modify (with_fetch AwaitDistribution).

(** From the first [await] to the second. *)
Definition fetchData_after_distribution (r : option JSValue) : M unit :=
  try_catch
    (let* distData := await r in
     let* dist := lift (JS.get distData "distribution") in
     let* p := lift (JS.get dist "positive") in
     let* n := lift (JS.get dist "negative") in
     let* u := lift (JS.get dist "neutral") in
     setDistributionData (distribution_rows p n u) >>
     axios_get AggregateHourly >>
     modify (with_fetch (AwaitTrend distData dist)))
    fetchData_catch.

(** From the second [await] to the third. *)
Definition fetchData_after_trend (distData dist : JSValue) (r : option JSValue) : M unit :=
  try_catch
    (let* trendBody := await r in
     let* rows := lift (JS.get trendBody "data") in
     let* mapped := lift (array_map trend_item rows) in
     setTrendData mapped >>
     axios_get Posts50 >>
     modify (with_fetch (AwaitPosts distData dist)))
    fetchData_catch.

(** From the third [await] to the end of the [try] block. *)
Definition fetchData_after_posts (distData dist : JSValue) (r : option JSValue) : M unit :=
  try_catch
    (let* postsBody := await r in
     let* posts := lift (JS.get postsBody "posts") in
     setRecentPosts posts >>
     let* t := lift (JS.get distData "total") in
     let* p := lift (JS.get dist "positive") in
     let* n := lift (JS.get dist "negative") in
     let* u := lift (JS.get dist "neutral") in
     setMetrics (JObj [("total", t); ("positive", p); ("negative", n); ("neutral", u)]) >>
     modify (with_fetch FetchIdle))
    fetchData_catch.

(** The request [fetchData] is waiting for. *)
Definition awaited (pc : FetchState) : option Endpoint :=
  match pc with
  | AwaitDistribution => Some Distribution24h
  | AwaitTrend _ _ => Some AggregateHourly
  | AwaitPosts _ _ => Some Posts50
  | FetchIdle => None
  end.

Definition fetchData_resume (r : option JSValue) : M unit :=
  let* pc := read fetch in
  match pc with
  | AwaitDistribution => fetchData_after_distribution r
  | AwaitTrend distData dist => fetchData_after_trend distData dist r
  | AwaitPosts distData dist => fetchData_after_posts distData dist r
  | FetchIdle => ret tt
  end.

(** ** Mounting *)

(** The [useState] initial values; [new Date()] is the time of the first
    render. *)
Definition initial_view (now : N) : ViewModel :=
  {| distributionData := [];
     trendData := [];
     recentPosts := JArr [];
     metrics := JObj [("total", JNum 0); ("positive", JNum 0);
                      ("negative", JNum 0); ("neutral", JNum 0)];
     connectionStatus := connecting;
     lastUpdate := now |}.

Definition first_render (now : N) : Dashboard :=
  {| view := initial_view now; mounted := true; ws_current := None;
     sockets := []; timers := []; fetch := FetchIdle; requests := [];
     console := []; clock := now |}.

(** The two effects run once, after the first render. *)
Definition mount (now : N) : Dashboard :=
  fst ((fetchData >> connectWebSocket) (first_render now)).

(** ** Events of the host *)

Inductive Event : Type :=
| SockOpen (i : nat)                          (* the [open] event of socket [i] *)
| SockMessage (i : nat) (data : MessageData)  (* a [message] event of socket [i] *)
| SockClose (i : nat)                         (* the [close] event of socket [i] *)
| TimerFire                                   (* the oldest pending timeout is due *)
| Response (ep : Endpoint) (r : option JSValue) (* the awaited request settles *)
| Unmount.                                    (* React unmounts the component *)

(** Running a callback from the event loop: an exception it does not catch
    is reported on the console and goes no further. *)
Definition dispatch (h : M unit) (st : Dashboard) : Dashboard :=
  match h st with
  | (st', Normal _) => st'
  | (st', Throw e) => with_console (console st' ++ [Uncaught e]) st'
  end.

Definition Endpoint_eqb (a b : Endpoint) : bool :=
  match a, b with
  | Distribution24h, Distribution24h
  | AggregateHourly, AggregateHourly
  | Posts50, Posts50 => true
  | _, _ => false
  end.

Definition tick (dt : N) (st : Dashboard) : Dashboard :=
  with_clock (clock st + dt) st.

(** One turn of the event loop, [dt] milliseconds after the previous one;
    [None] when the host cannot raise the event in this state. *)
Definition step (st : Dashboard) (dt : N) (ev : Event) : option Dashboard :=
  let st := tick dt st in
  match ev with
  | SockOpen i =>
      match sockets st !! i with
      | Some CONNECTING => Some (dispatch onopen (with_sockets (<[i:=OPEN]> (sockets st)) st))
      | _ => None
      end
  | SockMessage i data =>
      match sockets st !! i with
      | Some OPEN => Some (dispatch (onmessage data) st)
      | _ => None
      end
  | SockClose i =>
      match sockets st !! i with
      | Some CONNECTING | Some OPEN | Some CLOSING =>
          Some (dispatch onclose (with_sockets (<[i:=CLOSED]> (sockets st)) st))
      | _ => None
      end
  | TimerFire =>
      match timers st with
      | due :: rest =>
          if due <=? clock st
          then Some (dispatch connectWebSocket (with_timers rest st))
          else None
      | [] => None
      end
  | Response ep r =>
      match awaited (fetch st) with
      | Some ep' =>
          if Endpoint_eqb ep ep' then Some (dispatch (fetchData_resume r) st) else None
      | None => None
      end
  | Unmount =>
      if mounted st then Some (dispatch unmount st) else None
  end.

Definition Trace : Type := list (N * Event).

Fixpoint run (st : Dashboard) (tr : Trace) : option Dashboard :=
  match tr with
  | [] => Some st
  | (dt, ev) :: tr' =>
      match step st dt ev with
      | Some st' => run st' tr'
      | None => None
      end
  end.

(** The states a session can be in. *)
Definition reachable (st : Dashboard) : Prop :=
  exists (t0 : N) (tr : Trace), run (mount t0) tr = Some st.


(** ** Presentation *)

(** The components below read the state and own none.  Where JavaScript
    would convert a string or an object to a number or to a string, the
    models stop with [Unmodelled] rather than guess the conversion. *)
Inductive Rendering (A : Type) : Type :=
| Rendered (a : A)
| RenderThrows (e : JSError)
| Unmodelled.
Arguments Rendered {A} a.
Arguments RenderThrows {A} e.
Arguments Unmodelled {A}.

Definition render_bind {A B} (r : Rendering A) (k : A -> Rendering B) : Rendering B :=
  match r with
  | Rendered a => k a
  | RenderThrows e => RenderThrows e
  | Unmodelled => Unmodelled
  end.

Definition evaluate {A} (c : Completion A) : Rendering A :=
  match c with
  | Normal a => Rendered a
  | Throw e => RenderThrows e
  end.

Definition converted {A} (o : option A) : Rendering A :=
  match o with
  | Some a => Rendered a
  | None => Unmodelled
  end.

Module Coerce.

(** [Boolean(v)]; no [JNum] is [NaN]. *)
Definition truthy (v : JSValue) : bool :=
  match v with
  | JUndefined | JNull | JBool false | JNum 0 | JStr EmptyString => false
  | _ => true
  end.

(** [a || b] *)
Definition or_else (a b : JSValue) : JSValue := if truthy a then a else b.

(** [Number(v)] for numbers and booleans; [None] for the values whose
    conversion is not modelled. *)
Definition to_number (v : JSValue) : option Z :=
  match v with
  | JNum n => Some n
  | JBool true => Some 1%Z
  | JBool false => Some 0%Z
  | _ => None
  end.

End Coerce.

(** *** [DistributionChart.jsx] *)

(** What the component returns: the placeholder, or the pie over
    [chartData]; [total] is what the legend divides by. *)
Inductive DistributionView : Type :=
| NoDataYet
| Pie (chartData : list DistRow) (total : Z).

(** The array literal, before [filter]. *)
Definition chart_rows (data : JSValue) : Completion (list DistRow) :=
  and_then (JS.get data "positive") (fun p =>
  and_then (JS.get data "negative") (fun n =>
  and_then (JS.get data "neutral") (fun u =>
  Normal [ {| name := "Positive"; value := Coerce.or_else p (JNum 0) |};
           {| name := "Negative"; value := Coerce.or_else n (JNum 0) |};
           {| name := "Neutral"; value := Coerce.or_else u (JNum 0) |} ]))).

(** [.filter(item => item.value > 0)] *)
Fixpoint hide_zero_values (rows : list DistRow) : option (list DistRow) :=
  match rows with
  | [] => Some []
  | item :: rows' =>
      match Coerce.to_number (value item), hide_zero_values rows' with
      | Some k, Some kept => Some (if (0 <? k)%Z then item :: kept else kept)
      | _, _ => None
      end
  end.

(** [.reduce((sum, item) => sum + item.value, 0)] *)
Fixpoint sum_values (sum : Z) (rows : list DistRow) : option Z :=
  match rows with
  | [] => Some sum
  | item :: rows' =>
      match Coerce.to_number (value item) with
      | Some k => sum_values (sum + k)%Z rows'
      | None => None
      end
  end.

Definition DistributionChart (data : JSValue) : Rendering DistributionView :=
  render_bind (evaluate (chart_rows data)) (fun rows =>
  render_bind (converted (hide_zero_values rows)) (fun chartData =>
  render_bind (converted (sum_values 0 chartData)) (fun total =>
  Rendered (if (total =? 0)%Z then NoDataYet else Pie chartData total)))).

(** *** [SentimentChart] *)

Inductive TrendView : Type :=
| NoTrendData
| LineChart (formattedData : list JSValue).

(** [new Date(ts).toLocaleTimeString([], ...)]: the host's formatting
    [time_of] on a primitive [ts]; the conversion of an array or an object
    to a primitive is not modelled. *)
Definition time_label (time_of : JSValue -> string) (ts : JSValue) : Rendering string :=
  match ts with
  | JArr _ | JObj _ => Unmodelled
  | _ => Rendered (time_of ts)
  end.

(** [item => ({ ...item, time: ... })] *)
Definition format_row (time_of : JSValue -> string) (item : JSValue) : Rendering JSValue :=
  render_bind (evaluate (JS.get item "timestamp")) (fun ts =>
  render_bind (time_label time_of ts) (fun time =>
  Rendered (JObj (JS.set_field "time" (JStr time) (JS.spread_props item))))).

Fixpoint map_rendering (f : JSValue -> Rendering JSValue) (vs : list JSValue)
  : Rendering (list JSValue) :=
  match vs with
  | [] => Rendered []
  | v :: vs' =>
      render_bind (f v) (fun w =>
      render_bind (map_rendering f vs') (fun ws => Rendered (w :: ws)))
  end.

(** The component applied to an array, which is what [trendData] always
    is: the placeholder for the empty array, the chart over
    [formattedData] otherwise. *)
Definition SentimentChart (time_of : JSValue -> string) (data : list JSValue)
  : Rendering TrendView :=
  match data with
  | [] => Rendered NoTrendData
  | _ => render_bind (map_rendering (format_row time_of) data)
                     (fun formatted => Rendered (LineChart formatted))
  end.

(** *** The header and the cards of [Dashboard] *)

Inductive Icon : Type := Wifi | WifiOff.

Record Indicator : Type := {
  text_class : string;
  icon : Icon;
  label : ConnectionStatus
}.

Definition connection_indicator (c : ConnectionStatus) : Indicator :=
  match c with
  | connected => {| text_class := "text-green-400"; icon := Wifi; label := c |}
  | _ => {| text_class := "text-red-400"; icon := WifiOff; label := c |}
  end.

(** [v.toLocaleString()]: a [TypeError] on [undefined] and [null], the
    host's formatting [localised] on numbers, the string itself, and the
    name of a boolean. *)
Definition toLocaleString (localised : Z -> string) (v : JSValue) : Rendering string :=
  match v with
  | JUndefined | JNull => RenderThrows TypeError
  | JNum n => Rendered (localised n)
  | JStr s => Rendered s
  | JBool true => Rendered "true"
  | JBool false => Rendered "false"
  | _ => Unmodelled
  end.

(** One [MetricCard]: its title and its value. *)
Definition metric_card (localised : Z -> string) (title : string) (metrics : JSValue)
    (k : string) : Rendering (string * string) :=
  render_bind (evaluate (JS.get metrics k)) (fun v =>
  render_bind (toLocaleString localised v) (fun text =>
  Rendered (title, text))).

(** The bottom row of [Dashboard]. *)
Definition metric_cards (localised : Z -> string) (metrics : JSValue)
  : Rendering (list (string * string)) :=
  render_bind (metric_card localised "Total Posts" metrics "total") (fun c1 =>
  render_bind (metric_card localised "Positive" metrics "positive") (fun c2 =>
  render_bind (metric_card localised "Negative" metrics "negative") (fun c3 =>
  render_bind (metric_card localised "Neutral" metrics "neutral") (fun c4 =>
  Rendered [c1; c2; c3; c4])))).
(** * Vocabulary of the properties *)

(** ** Shapes of payloads *)

(** A parsed frame is a [new_post] event carrying [post]. *)
Definition is_new_post (message post : JSValue) : Prop :=
  JS.get message "type" = Normal (JStr "new_post") /\
  JS.get message "data" = Normal post.

(** A parsed frame is a [metrics_update] event carrying [snapshot]
    (as [data.last_24_hours]). *)
Definition is_metrics_update (message snapshot : JSValue) : Prop :=
  JS.get message "type" = Normal (JStr "metrics_update") /\
  exists d, JS.get message "data" = Normal d /\
            JS.get d "last_24_hours" = Normal snapshot.

Definition new_post_message (post : JSValue) : JSValue :=
  JObj [("type", JStr "new_post"); ("data", post)].

Definition metrics_update_message (snapshot : JSValue) : JSValue :=
  JObj [("type", JStr "metrics_update"); ("data", JObj [("last_24_hours", snapshot)])].

(** [{positive, negative, neutral, total}] *)
Definition counts (p n u t : Z) : JSValue :=
  JObj [("positive", JNum p); ("negative", JNum n); ("neutral", JNum u); ("total", JNum t)].

(** The initial value of [metrics]. *)
Definition counts_zero : JSValue :=
  JObj [("total", JNum 0); ("positive", JNum 0); ("negative", JNum 0); ("neutral", JNum 0)].

(** The bodies of the three responses. *)
Definition sentiment_counts (p n u : Z) : JSValue :=
  JObj [("positive", JNum p); ("negative", JNum n); ("neutral", JNum u)].

Definition distribution_response (p n u t : Z) : JSValue :=
  JObj [("distribution", sentiment_counts p n u); ("total", JNum t)].

Definition trend_point (timestamp : string) (p n u : Z) : JSValue :=
  JObj [("timestamp", JStr timestamp); ("positive_count", JNum p);
        ("negative_count", JNum n); ("neutral_count", JNum u)].

Definition trend_response (points : list JSValue) : JSValue :=
  JObj [("data", JArr points)].

Definition post (id : Z) : JSValue :=
  JObj [("post_id", JNum id); ("author", JStr "ada"); ("content", JStr "hello");
        ("source", JStr "feed"); ("sentiment_label", JStr "positive")].

Definition posts_response (posts : list JSValue) : JSValue :=
  JObj [("posts", JArr posts)].

(** A list of timed frames, as events of socket [i]. *)
Definition message_event (i : nat) (e : N * JSValue) : N * Event :=
  (fst e, SockMessage i (JSONText (snd e))).

(** ** The feed *)

(** The feed is an array of at most 50 entries. *)
Definition feed_bounded (v : JSValue) : Prop :=
  exists posts, v = JArr posts /\ (length posts <= 50)%nat.

(** The snapshot of posts, when it arrives, is an array of at most 50. *)
Definition posts_snapshot_bounded (ev : Event) : Prop :=
  match ev with
  | Response Posts50 (Some body) =>
      exists posts, JS.get body "posts" = Normal (JArr posts) /\ (length posts <= 50)%nat
  | _ => True
  end.

(** ** The metrics *)

(** [m.positive + m.negative + m.neutral == m.total], on numbers. *)
Definition balanced (m : JSValue) : Prop :=
  exists p n u t : Z,
    JS.get m "positive" = Normal (JNum p) /\
    JS.get m "negative" = Normal (JNum n) /\
    JS.get m "neutral" = Normal (JNum u) /\
    JS.get m "total" = Normal (JNum t) /\
    (p + n + u = t)%Z.

(** The same for the body of the distribution response, whose counts are
    under [distribution] and whose total is beside it. *)
Definition distribution_balanced (distData dist : JSValue) : Prop :=
  exists p n u t : Z,
    JS.get dist "positive" = Normal (JNum p) /\
    JS.get dist "negative" = Normal (JNum n) /\
    JS.get dist "neutral" = Normal (JNum u) /\
    JS.get distData "total" = Normal (JNum t) /\
    (p + n + u = t)%Z.

(** What the server sends is balanced: the distribution response, and the
    snapshot of every [metrics_update] frame. *)
Definition payload_balanced (ev : Event) : Prop :=
  match ev with
  | Response Distribution24h (Some distData) =>
      exists dist, JS.get distData "distribution" = Normal dist /\
                   distribution_balanced distData dist
  | SockMessage _ (JSONText message) =>
      JS.get message "type" = Normal (JStr "metrics_update") ->
      exists snapshot, is_metrics_update message snapshot /\ balanced snapshot
  | _ => True
  end.

(** The metrics are balanced, and so is the distribution response that
    [fetchData] holds on to. *)
Definition metrics_inv (st : Dashboard) : Prop :=
  balanced (metrics (view st)) /\
  match fetch st with
  | AwaitTrend distData dist | AwaitPosts distData dist =>
      distribution_balanced distData dist
  | _ => True
  end.

(** The one payload a value of [metrics] is taken from: the snapshot of a
    [metrics_update] frame, or the counts and the total of the distribution
    response. *)
Definition metrics_source (ev : Event) (m : JSValue) : Prop :=
  match ev with
  | SockMessage _ (JSONText message) => is_metrics_update message m
  | Response Distribution24h (Some distData) =>
      exists dist t p n u,
        JS.get distData "distribution" = Normal dist /\
        JS.get distData "total" = Normal t /\
        JS.get dist "positive" = Normal p /\
        JS.get dist "negative" = Normal n /\
        JS.get dist "neutral" = Normal u /\
        m = JObj [("total", t); ("positive", p); ("negative", n); ("neutral", u)]
  | _ => False
  end.

(** [m] is the initial value or comes from one event of [tr]. *)
Definition from_one_payload (t0 : N) (tr : Trace) (m : JSValue) : Prop :=
  m = metrics (initial_view t0) \/
  exists e, In e tr /\ metrics_source (snd e) m.

Definition provenance_inv (t0 : N) (tr : Trace) (st : Dashboard) : Prop :=
  from_one_payload t0 tr (metrics (view st)) /\
  forall distData dist,
    fetch st = AwaitTrend distData dist \/ fetch st = AwaitPosts distData dist ->
    JS.get distData "distribution" = Normal dist /\
    exists dt, In (dt, Response Distribution24h (Some distData)) tr.

(** ** The connection *)

(** A socket the host still owes a [close] event. *)
Definition live (s : ReadyState) : bool :=
  match s with
  | CLOSED => false
  | _ => true
  end.

Fixpoint count_live (ss : list ReadyState) : nat :=
  match ss with
  | [] => 0
  | s :: ss' => (if live s then 1 else 0) + count_live ss'
  end.

(** One connection at a time: a live socket or a pending retry, never two
    of either, never both. *)
Definition one_connection (st : Dashboard) : Prop :=
  (length (timers st) + count_live (sockets st) = 1)%nat.

(** [n] outages in a row: socket [i] closes, the retry fires after three
    seconds and creates the [L]-th socket, which opens. *)
Fixpoint outages (i L n : nat) : Trace :=
  match n with
  | O => []
  | S n' =>
      [(1, SockClose i); (3000, TimerFire); (1, SockOpen L)] ++ outages L (S L) n'
  end.

(** The values of [connectionStatus] after each event of a trace. *)
Fixpoint status_history (st : Dashboard) (tr : Trace) : list ConnectionStatus :=
  match tr with
  | [] => []
  | (dt, ev) :: tr' =>
      match step st dt ev with
      | Some st' => connectionStatus (view st') :: status_history st' tr'
      | None => []
      end
  end.

(** ** The snapshot *)

(** The three responses, when they have the shape [fetchData] reads. *)
Definition distribution_ok (distData dist t p n u : JSValue) : Prop :=
  JS.get distData "distribution" = Normal dist /\
  JS.get distData "total" = Normal t /\
  JS.get dist "positive" = Normal p /\
  JS.get dist "negative" = Normal n /\
  JS.get dist "neutral" = Normal u.

Definition trend_ok (trendBody : JSValue) (mapped : list JSValue) : Prop :=
  exists rows, JS.get trendBody "data" = Normal rows /\
               array_map trend_item rows = Normal mapped.

Definition posts_ok (postsBody posts : JSValue) : Prop :=
  JS.get postsBody "posts" = Normal posts.

(** What the [catch] block prints for a rejected request. *)
Definition fetch_failure : LogEntry :=
  ConsoleError "Failed to fetch initial data:" AxiosError.

(** The requests sent so far are the first ones of the fixed sequence. *)
Definition requests_in_sequence (st : Dashboard) : Prop :=
  match fetch st with
  | AwaitDistribution => requests st = [Distribution24h]
  | AwaitTrend _ _ => requests st = [Distribution24h; AggregateHourly]
  | AwaitPosts _ _ => requests st = [Distribution24h; AggregateHourly; Posts50]
  | FetchIdle =>
      requests st = [Distribution24h] \/
      requests st = [Distribution24h; AggregateHourly] \/
      requests st = [Distribution24h; AggregateHourly; Posts50]
  end.

(** A setter applied from the state [st]. *)
Definition when_mounted (st : Dashboard) (f : ViewModel -> ViewModel)
  : Dashboard -> Dashboard :=
  if mounted st then with_view f else id.

(** ** Sessions used as examples *)

Definition sample_distribution : JSValue := distribution_response 1 1 0 2.

Definition sample_trend : JSValue :=
  trend_response [trend_point "2025-01-01T10:00:00" 1 1 0].

Definition sample_posts : JSValue := posts_response [post 2; post 1].

(** The socket is open, the snapshot has not arrived. *)
Definition open_session : Dashboard :=
  Eval vm_compute in default (mount 0) (run (mount 0) [(10, SockOpen 0%nat)]).

(** The socket is open and the snapshot is in. *)
Definition loaded_trace : Trace :=
  [ (10, SockOpen 0%nat);
    (5, Response Distribution24h (Some sample_distribution));
    (5, Response AggregateHourly (Some sample_trend));
    (5, Response Posts50 (Some sample_posts)) ].

Definition loaded_session : Dashboard :=
  Eval vm_compute in default (mount 0) (run (mount 0) loaded_trace).

(** Then a post and new metrics are pushed. *)
Definition updated_trace : Trace :=
  loaded_trace ++
  [ (7, SockMessage 0%nat (JSONText (new_post_message (post 3))));
    (7, SockMessage 0%nat (JSONText (metrics_update_message (counts 12 5 5 22)))) ].

Definition updated_session : Dashboard :=
  Eval vm_compute in default (mount 0) (run (mount 0) updated_trace).

(** Scenario B: the snapshot returns the counts 10, 5, 5 and the total 20. *)
Definition scenario_B_trace : Trace :=
  [ (10, SockOpen 0%nat);
    (5, Response Distribution24h (Some (distribution_response 10 5 5 20)));
    (5, Response AggregateHourly (Some (trend_response [])));
    (5, Response Posts50 (Some (posts_response []))) ].

Definition scenario_B_session : Dashboard :=
  Eval vm_compute in default (mount 0) (run (mount 0) scenario_B_trace).

(** Scenario D: sixty posts, 20 ms apart. *)
Definition sixty_posts : list JSValue := map (fun k => post (Z.of_nat k)) (seq 1 60).

Definition sixty_events : list (N * JSValue) :=
  map (fun p => (20, new_post_message p)) sixty_posts.

(** A frame of a kind the handler does not know. *)
Definition heartbeat_message : JSValue := JObj [("type", JStr "heartbeat"); ("data", JNull)].

(** A [metrics_update] frame without the [data] property. *)
Definition shapeless_metrics_update : JSValue := JObj [("type", JStr "metrics_update")].

(** Scenario C: the channel closes, three seconds pass. *)
Definition outage_trace : Trace :=
  [ (10, SockOpen 0%nat); (500, SockClose 0%nat); (3000, TimerFire) ].

Definition retrying_session : Dashboard :=
  Eval vm_compute in default (mount 0) (run (mount 0) outage_trace).

(** The component is unmounted while its socket is open. *)
Definition teardown_trace : Trace :=
  [ (10, SockOpen 0%nat); (1000, Unmount); (5, SockClose 0%nat);
    (3000, TimerFire); (40, SockOpen 1%nat) ].

Definition zombie_session : Dashboard :=
  Eval vm_compute in default (mount 0) (run (mount 0) teardown_trace).

(** The component is unmounted while a retry is pending. *)
Definition teardown_trace_pending : Trace :=
  [ (10, SockOpen 0%nat); (20, SockClose 0%nat); (100, Unmount); (2900, TimerFire) ].

Definition zombie_session_pending : Dashboard :=
  Eval vm_compute in default (mount 0) (run (mount 0) teardown_trace_pending).

(** * Vocabulary of the further properties *)

(** [undefined] or [null]. *)
Definition nullish (v : JSValue) : bool :=
  match v with
  | JUndefined | JNull => true
  | _ => false
  end.

(** The rows the [metrics_update] branch builds from a snapshot. *)
Definition snapshot_rows (snapshot : JSValue) : Completion (list DistRow) :=
  and_then (JS.get snapshot "positive") (fun p =>
  and_then (JS.get snapshot "negative") (fun n =>
  and_then (JS.get snapshot "neutral") (fun u =>
  Normal (distribution_rows p n u)))).

(** A [metrics_update] frame whose [data] has no [last_24_hours]. *)
Definition update_without_snapshot : JSValue :=
  JObj [("type", JStr "metrics_update"); ("data", JObj [("last_hour", counts 1 0 0 1)])].

(** The snapshot and a push that overtakes it. *)
Definition overtaken_trace (d0 d1 d2 d3 d4 : N)
    (distData message trendBody postsBody : JSValue) : Trace :=
  [ (d0, SockOpen 0%nat);
    (d1, Response Distribution24h (Some distData));
    (d2, SockMessage 0%nat (JSONText message));
    (d3, Response AggregateHourly (Some trendBody));
    (d4, Response Posts50 (Some postsBody)) ].

(** A distribution response without the [distribution] object. *)
Definition distribution_without_counts : JSValue := JObj [("total", JNum 2)].

(** Fifty-one posts, one more than the feed keeps. *)
Definition fifty_one_posts : list JSValue := map (fun k => post (Z.of_nat k)) (seq 1 51).

(** The first two responses are in, the third is awaited. *)
Definition awaiting_posts_session : Dashboard :=
  Eval vm_compute in
    default (mount 0)
      (run (mount 0) [ (10, SockOpen 0%nat);
                       (5, Response Distribution24h (Some sample_distribution));
                       (5, Response AggregateHourly (Some sample_trend)) ]).

(** A JavaScript object that is not an array. *)
Definition is_object (v : JSValue) : bool :=
  match v with
  | JObj _ => true
  | _ => false
  end.

(** What the trend mapping makes of an object row: a row that has a
    [timestamp] is copied as it is, a row without gets an explicit
    [timestamp: undefined]. *)
Definition normalised_row (fs : list (string * JSValue)) : JSValue :=
  match JS.lookup_field "timestamp" fs with
  | Some _ => JObj fs
  | None => JObj (fs ++ [("timestamp", JUndefined)])
  end.

(** A trend row that lacks its [timestamp]. *)
Definition row_without_timestamp : JSValue := JObj [("positive_count", JNum 3)].

(** The sockets created so far: all closed but possibly the newest, which
    [ws.current] names; and either that one is live and no retry is
    pending, or it is closed and one retry is pending. *)
Definition socket_chain (st : Dashboard) : Prop :=
  exists k s,
    sockets st = replicate k CLOSED ++ [s] /\
    ws_current st = Some k /\
    ((timers st = [] /\ live s = true) \/ (exists due, timers st = [due] /\ s = CLOSED)).

(** What the header shows agrees with the newest socket. *)
Definition status_agrees (st : Dashboard) : Prop :=
  mounted st = true ->
  match connectionStatus (view st) with
  | connecting => sockets st = [CONNECTING]
  | connected => last (sockets st) = Some OPEN
  | disconnected => last (sockets st) <> Some OPEN
  end.

(** What the cleanup does to the sockets. *)
Definition closed_by_cleanup (st : Dashboard) : list ReadyState :=
  match ws_current st with
  | Some cur => close_socket cur (sockets st)
  | None => sockets st
  end.

(** A count as the chart reads it: a number, or nothing at all. *)
Definition as_count (v : JSValue) : option Z :=
  match v with
  | JNum n => Some n
  | JUndefined | JNull => Some 0%Z
  | _ => None
  end.

(** The rows of the pie for the counts [p], [n], [u]. *)
Definition positive_rows (p n u : Z) : list DistRow :=
  (if (0 <? p)%Z then [ {| name := "Positive"; value := JNum p |} ] else []) ++
  (if (0 <? n)%Z then [ {| name := "Negative"; value := JNum n |} ] else []) ++
  (if (0 <? u)%Z then [ {| name := "Neutral"; value := JNum u |} ] else []).

(** Neither an array nor an object. *)
Definition primitive (v : JSValue) : bool :=
  match v with
  | JArr _ | JObj _ => false
  | _ => true
  end.

(** [row.timestamp] of an object row. *)
Definition timestamp_of (fs : list (string * JSValue)) : JSValue :=
  default JUndefined (JS.lookup_field "timestamp" fs).

(** A row the chart can label: an object whose timestamp is a primitive. *)
Definition plottable (row : JSValue) : Prop :=
  exists fs, row = JObj fs /\ primitive (timestamp_of fs) = true.

(** The row the chart draws for an object row. *)
Definition formatted_row (time_of : JSValue -> string) (fs : list (string * JSValue))
  : JSValue :=
  JObj (JS.set_field "time" (JStr (time_of (timestamp_of fs))) fs).

(** A formatter to run the chart with: the hour and minute of an ISO
    timestamp. *)
Definition clock_label (ts : JSValue) : string :=
  match ts with
  | JStr s => substring 11 5 s
  | _ => "Invalid Date"
  end.

(** A number format to run the cards with; it shows the sign only. *)
Definition plain_number (k : Z) : string :=
  match k with
  | Z0 => "0"
  | Zpos _ => "+"
  | Zneg _ => "-"
  end.
(** * Proofs *)

(** ** Runs *)

Lemma run_app st tr1 tr2 :
  run st (tr1 ++ tr2) = match run st tr1 with Some st' => run st' tr2 | None => None end.
Proof.
  revert st. induction tr1 as [|[dt ev] tr1 IH]; intros st; simpl; [reflexivity|].
  destruct (step st dt ev); [apply IH | reflexivity].
Qed.

(** Invariants of single steps carry over to runs. *)
Lemma run_invariant (P : Dashboard -> Prop) (Q : Event -> Prop) :
  (forall st dt ev st', P st -> Q ev -> step st dt ev = Some st' -> P st') ->
  forall tr st st',
    Forall (fun e => Q (snd e)) tr -> P st -> run st tr = Some st' -> P st'.
Proof.
  intros Hstep tr. induction tr as [|[dt ev] tr IH]; intros st st' HQ HP Hrun; simpl in Hrun.
  - inversion Hrun; subst; exact HP.
  - inversion HQ as [|? ? Hev Htr]; subst. simpl in Hev.
    destruct (step st dt ev) as [st1|] eqn:Hs; [|discriminate].
    apply (IH st1 st' Htr); [|exact Hrun]. exact (Hstep _ _ _ _ HP Hev Hs).
Qed.

(** ** Case analysis on a step *)

Ltac unfold_handlers :=
  unfold dispatch, onopen, onclose, onmessage, connectWebSocket, unmount, cleanup,
    fetchData_resume, fetchData_after_distribution, fetchData_after_trend,
    fetchData_after_posts, fetchData_catch, setRecentPosts_with, new_WebSocket,
    setTimeout_connectWebSocket, console_log, console_error, axios_get, await,
    JSON_parse, setDistributionData, setTrendData, setRecentPosts, setMetrics,
    setConnectionStatus, setLastUpdate, set_state, try_catch, bind, ret, throw,
    lift, modify, read in *.

Ltac state_simpl :=
  cbn [view mounted ws_current sockets timers fetch requests console clock
       with_view with_mounted with_ws_current with_sockets with_timers
       with_fetch with_requests with_console with_clock tick
       distributionData trendData recentPosts metrics connectionStatus lastUpdate
       put_distributionData put_trendData put_recentPosts put_metrics
       put_connectionStatus put_lastUpdate] in *.

Ltac break_match :=
  match goal with
  | H : context [match ?x with _ => _ end] |- _ => destruct x eqn:?
  | |- context [match ?x with _ => _ end] => destruct x eqn:?
  | H : context [if ?x then _ else _] |- _ => destruct x eqn:?
  | |- context [if ?x then _ else _] => destruct x eqn:?
  end.

Ltac crush_step :=
  unfold step, tick in *; unfold_handlers; unfold_handlers; simpl in *;
  repeat (first [progress simplify_eq /= | break_match]).

(** ** The feed *)

Lemma prepend_post_array message post posts :
  JS.get message "data" = Normal post ->
  prepend_post message (JArr posts) = Normal (JArr (firstn 50 (post :: posts))).
Proof. intros H. unfold prepend_post. rewrite H. reflexivity. Qed.

Lemma prepend_post_bounded message prev next :
  prepend_post message prev = Normal next -> feed_bounded next.
Proof.
  unfold prepend_post, and_then. intros H.
  destruct (JS.get message "data") as [post|]; [|discriminate].
  destruct (JS.spread_items prev) as [items|]; [|discriminate].
  injection H as <-. eexists; split; [reflexivity|].
  unfold JS.slice0. rewrite List.length_firstn. lia.
Qed.

Lemma feed_bounded_step st dt ev st' :
  feed_bounded (recentPosts (view st)) -> posts_snapshot_bounded ev ->
  step st dt ev = Some st' -> feed_bounded (recentPosts (view st')).
Proof.
  intros HP HQ Hs.
  destruct ev as [i|i data|i| |ep r|]; try (crush_step; auto; fail).
  - crush_step; eauto using prepend_post_bounded.
  - destruct ep, r as [body|]; simpl in HQ; try (crush_step; auto; fail);
      destruct HQ as (posts & Hget & Hlen); crush_step; auto;
      exists posts; auto.
Qed.

(** *** What a message does *)

Lemma step_message_NotJSON st dt i text :
  sockets st !! i = Some OPEN ->
  step st dt (SockMessage i (NotJSON text)) =
    Some (with_console (console st ++ [Uncaught SyntaxError]) (tick dt st)).
Proof. intros Hs. unfold step. simpl. rewrite Hs. reflexivity. Qed.

Lemma step_new_post st dt i message post posts :
  sockets st !! i = Some OPEN -> mounted st = true ->
  recentPosts (view st) = JArr posts -> is_new_post message post ->
  step st dt (SockMessage i (JSONText message)) =
    Some (with_view (put_recentPosts (JArr (JS.slice0 50 (post :: posts))))
            (with_view (put_lastUpdate (clock st + dt)) (tick dt st))).
Proof.
  intros Hs Hm Hp [Hty Hd]. unfold step. simpl. rewrite Hs.
  unfold dispatch, onmessage, setLastUpdate, setRecentPosts_with, setRecentPosts,
    set_state, bind, lift, read, modify, ret. simpl.
  rewrite Hm, Hty. simpl. rewrite Hm. state_simpl. rewrite Hp.
  rewrite (prepend_post_array _ _ _ Hd). state_simpl. rewrite Hm. reflexivity.
Qed.

Lemma step_message_enabled st dt i data st' :
  step st dt (SockMessage i data) = Some st' -> sockets st !! i = Some OPEN.
Proof.
  unfold step. state_simpl. intros H.
  destruct (sockets st !! i) as [[]|]; try discriminate. reflexivity.
Qed.

Lemma mount_feed t0 : recentPosts (view (mount t0)) = JArr [].
Proof. reflexivity. Qed.

(** C1: in every state of a session whose posts snapshot holds at most 50
    posts, the feed is an array of at most 50 entries; and a [new_post]
    event puts the post it carries in front of the feed and keeps the first
    50 entries of the result. *)
Theorem C1_feed_at_most_50 (t0 : N) (tr : Trace) (st : Dashboard) :
  Forall (fun e => posts_snapshot_bounded (snd e)) tr ->
  run (mount t0) tr = Some st ->
  feed_bounded (recentPosts (view st)) /\
  (forall dt i message post st',
      mounted st = true -> is_new_post message post ->
      step st dt (SockMessage i (JSONText message)) = Some st' ->
      exists posts,
        recentPosts (view st) = JArr posts /\
        recentPosts (view st') = JArr (firstn 50 (post :: posts))).
Proof.
  intros Hsnap Hrun.
  assert (Hb : feed_bounded (recentPosts (view st))).
  { apply (run_invariant (fun s => feed_bounded (recentPosts (view s)))
             posts_snapshot_bounded) with (tr := tr) (st := mount t0); auto.
    - intros; eapply feed_bounded_step; eauto.
    - exists []; split; [apply mount_feed | simpl; lia]. }
  split; [exact Hb|].
  intros dt i message post st' Hm Hnew Hstep.
  destruct Hb as (posts & Hp & _). exists posts. split; [exact Hp|].
  pose proof (step_message_enabled _ _ _ _ _ Hstep) as Hopen.
  rewrite (step_new_post _ _ _ _ _ _ Hopen Hm Hp Hnew) in Hstep.
  injection Hstep as <-. reflexivity.
Qed.

Lemma C1_witness :
  feed_bounded (recentPosts (view loaded_session)) /\
  exists st', step loaded_session 7
                (SockMessage 0%nat (JSONText (new_post_message (post 3)))) = Some st' /\
    recentPosts (view st') = JArr [post 3; post 2; post 1].
Proof.
  destruct (C1_feed_at_most_50 0 loaded_trace loaded_session) as [Hb Hnew].
  - repeat constructor. simpl. exists [post 2; post 1]. split; [reflexivity | simpl; lia].
  - vm_compute. reflexivity.
  - split; [exact Hb|].
    eexists. split; [vm_compute; reflexivity|].
    destruct (Hnew 7 0%nat (new_post_message (post 3)) (post 3) _
                eq_refl (conj eq_refl eq_refl) ltac:(vm_compute; reflexivity))
      as (posts & Hp & Hp').
    injection Hp as <-. exact Hp'.
Defined.

(** *** Newest first *)

Lemma firstn_app_firstn {A} (n : nat) (a b : list A) :
  firstn n (a ++ firstn n b) = firstn n (a ++ b).
Proof.
  rewrite !firstn_app, firstn_firstn. f_equal. f_equal. lia.
Qed.

Lemma firstn_rev_recent {A} (n k : nat) (l : list A) :
  length l = (k + n)%nat -> firstn n (rev l) = rev (skipn k l).
Proof.
  intros Hl. rewrite <- (firstn_skipn k l) at 1.
  rewrite rev_app_distr, firstn_app.
  assert (Hn : length (rev (skipn k l)) = n) by (rewrite length_rev, length_skipn; lia).
  rewrite Hn, Nat.sub_diag, firstn_O, app_nil_r.
  rewrite <- Hn. apply firstn_all.
Qed.

Lemma run_new_posts i evs ps :
  Forall2 (fun e p => is_new_post (snd e) p) evs ps ->
  forall st old,
    sockets st !! i = Some OPEN -> mounted st = true ->
    recentPosts (view st) = JArr old -> (length old <= 50)%nat ->
    exists st',
      run st (map (message_event i) evs) = Some st' /\
      sockets st' !! i = Some OPEN /\ mounted st' = true /\
      recentPosts (view st') = JArr (firstn 50 (rev ps ++ old)).
Proof.
  induction 1 as [|[dt message] p evs ps Hnew _ IH]; intros st old Hs Hm Hp Hlen.
  - exists st. simpl. repeat split; auto.
    rewrite Hp, firstn_all2 by exact Hlen. reflexivity.
  - simpl in Hnew.
    change (map (message_event i) ((dt, message) :: evs))
      with ((dt, SockMessage i (JSONText message)) :: map (message_event i) evs).
    cbn [run].
    rewrite (step_new_post _ _ _ _ _ _ Hs Hm Hp Hnew).
    edestruct IH as (st' & Hrun & Hs' & Hm' & Hp'); cycle -1.
    + exists st'. split; [exact Hrun|]. split; [exact Hs'|]. split; [exact Hm'|].
      rewrite Hp'. unfold JS.slice0. rewrite firstn_app_firstn.
      simpl rev. rewrite <- app_assoc. reflexivity.
    + exact Hs.
    + exact Hm.
    + reflexivity.
    + unfold JS.slice0. rewrite length_firstn. lia.
Qed.

(** C2: [new_post] events applied in their order of arrival leave the feed
    newest first: after them the feed is the first 50 of the posts in
    reverse order of arrival, followed by what was there; two events put
    the second one's post ahead of the first one's; and 60 events on an
    empty feed leave exactly the last 50 posts, newest first, the first 10
    gone. *)
Theorem C2_newest_first (st : Dashboard) (i : nat)
    (evs : list (N * JSValue)) (ps old : list JSValue) :
  sockets st !! i = Some OPEN -> mounted st = true ->
  recentPosts (view st) = JArr old -> (length old <= 50)%nat ->
  Forall2 (fun e p => is_new_post (snd e) p) evs ps ->
  exists st',
    run st (map (message_event i) evs) = Some st' /\
    recentPosts (view st') = JArr (firstn 50 (rev ps ++ old)) /\
    (forall p1 p2, ps = [p1; p2] ->
       recentPosts (view st') = JArr (p2 :: p1 :: firstn 48 old)) /\
    (old = [] -> length ps = 60%nat ->
       recentPosts (view st') = JArr (rev (skipn 10 ps)) /\
       length (rev (skipn 10 ps)) = 50%nat).
Proof.
  intros Hs Hm Hp Hlen Hnew.
  destruct (run_new_posts i evs ps Hnew st old Hs Hm Hp Hlen)
    as (st' & Hrun & _ & _ & Hfeed).
  exists st'. split; [exact Hrun|]. split; [exact Hfeed|]. split.
  - intros p1 p2 ->. rewrite Hfeed. reflexivity.
  - intros -> H60. rewrite Hfeed, app_nil_r.
    rewrite (firstn_rev_recent 50 10 ps) by (rewrite H60; reflexivity).
    split; [reflexivity|]. rewrite length_rev, length_skipn. lia.
Qed.

Lemma C2_witness :
  exists st',
    run open_session (map (message_event 0) sixty_events) = Some st' /\
    recentPosts (view st') = JArr (rev (skipn 10 sixty_posts)).
Proof.
  destruct (C2_newest_first open_session 0%nat sixty_events sixty_posts [])
    as (st' & Hrun & _ & _ & H60).
  - reflexivity.
  - reflexivity.
  - reflexivity.
  - simpl; lia.
  - unfold sixty_events. induction sixty_posts as [|p l IH]; constructor.
    + split; reflexivity.
    + exact IH.
  - exists st'. split; [exact Hrun|]. exact (proj1 (H60 eq_refl eq_refl)).
Defined.

(** ** Messages *)

Lemma step_message_frame st dt i data st' :
  step st dt (SockMessage i data) = Some st' ->
  trendData (view st') = trendData (view st) /\
  connectionStatus (view st') = connectionStatus (view st) /\
  timers st' = timers st /\ ws_current st' = ws_current st /\
  fetch st' = fetch st /\ requests st' = requests st /\
  clock st' = clock st + dt.
Proof. intros Hs. crush_step; repeat split; reflexivity. Qed.

Lemma step_message_stamp st dt i message st' :
  mounted st = true ->
  step st dt (SockMessage i (JSONText message)) = Some st' ->
  lastUpdate (view st') = clock st + dt.
Proof. intros Hm Hs. crush_step; reflexivity. Qed.

Lemma step_metrics_update st dt i message snapshot st' :
  is_metrics_update message snapshot ->
  step st dt (SockMessage i (JSONText message)) = Some st' ->
  recentPosts (view st') = recentPosts (view st) /\
  sockets st' = sockets st /\ mounted st' = mounted st /\
  (mounted st = true -> metrics (view st') = snapshot).
Proof.
  intros (Hty & d & Hd & Hsnap) Hs.
  unfold step in Hs. state_simpl.
  destruct (sockets st !! i) as [[]|]; try discriminate.
  unfold dispatch, onmessage, JSON_parse, bind, ret, read, lift in Hs.
  rewrite Hty in Hs. cbn [JS.strict_eq_str String.eqb Ascii.eqb Bool.eqb] in Hs.
  rewrite Hd, Hsnap in Hs.
  crush_step; repeat split; try reflexivity; congruence.
Qed.

Lemma step_other_kind st dt i message type st' :
  JS.get message "type" = Normal type ->
  JS.strict_eq_str type "new_post" = false ->
  JS.strict_eq_str type "metrics_update" = false ->
  step st dt (SockMessage i (JSONText message)) = Some st' ->
  st' = (if mounted st then with_view (put_lastUpdate (clock st + dt)) (tick dt st)
         else tick dt st).
Proof.
  intros Hty Hn Hu Hs.
  unfold step in Hs. state_simpl.
  destruct (sockets st !! i) as [[]|]; try discriminate.
  unfold dispatch, onmessage, JSON_parse, bind, ret, read, lift in Hs.
  rewrite Hty, Hn, Hu in Hs.
  crush_step; reflexivity.
Qed.

(** C3: a [metrics_update] event replaces [metrics] by the snapshot it
    carries, whatever the previous metrics were; from
    [{positive:10,negative:5,neutral:5,total:20}], the update carrying
    [{positive:12,negative:5,neutral:5,total:22}] leaves [metrics.total] at
    22. *)
Theorem C3_metrics_replaced_wholesale
    (st : Dashboard) (dt : N) (i : nat) (message snapshot : JSValue) (st' : Dashboard) :
  mounted st = true ->
  is_metrics_update message snapshot ->
  step st dt (SockMessage i (JSONText message)) = Some st' ->
  metrics (view st') = snapshot /\
  (JS.get (metrics (view st)) "total" = Normal (JNum 20) ->
   snapshot = counts 12 5 5 22 ->
   JS.get (metrics (view st')) "total" = Normal (JNum 22) /\
   JS.get (metrics (view st')) "total" <> Normal (JNum 42)).
Proof.
  intros Hm Hupd Hs.
  destruct (step_metrics_update _ _ _ _ _ _ Hupd Hs) as (_ & _ & _ & Hmetrics).
  specialize (Hmetrics Hm). split; [exact Hmetrics|].
  intros _ ->. rewrite Hmetrics. split; [reflexivity | discriminate].
Qed.

Lemma C3_witness :
  JS.get (metrics (view scenario_B_session)) "total" = Normal (JNum 20) /\
  exists st',
    step scenario_B_session 5
      (SockMessage 0%nat (JSONText (metrics_update_message (counts 12 5 5 22)))) = Some st' /\
    metrics (view st') = counts 12 5 5 22 /\
    JS.get (metrics (view st')) "total" = Normal (JNum 22).
Proof.
  split; [reflexivity|].
  eexists. split; [vm_compute; reflexivity|].
  destruct (C3_metrics_replaced_wholesale scenario_B_session 5 0%nat
              (metrics_update_message (counts 12 5 5 22)) (counts 12 5 5 22) _
              eq_refl
              (conj eq_refl (ex_intro _ (JObj [("last_24_hours", counts 12 5 5 22)])
                               (conj eq_refl eq_refl)))
              ltac:(vm_compute; reflexivity)) as [Hrep Hb].
  split; [exact Hrep | exact (proj1 (Hb eq_refl eq_refl))].
Defined.

(** C10: a [metrics_update] event leaves the feed and the trend as they
    were (and replaces the metrics); no event other than the snapshot's
    responses ever changes the trend. *)
Theorem C10_metrics_update_frame
    (st : Dashboard) (dt : N) (ev : Event) (st' : Dashboard) :
  step st dt ev = Some st' ->
  (forall i message snapshot,
      ev = SockMessage i (JSONText message) -> is_metrics_update message snapshot ->
      recentPosts (view st') = recentPosts (view st) /\
      trendData (view st') = trendData (view st) /\
      connectionStatus (view st') = connectionStatus (view st) /\
      (mounted st = true -> metrics (view st') = snapshot)) /\
  ((forall ep r, ev <> Response ep r) -> trendData (view st') = trendData (view st)).
Proof.
  intros Hs. split.
  - intros i message snapshot -> Hupd.
    destruct (step_message_frame _ _ _ _ _ Hs) as (Ht & Hc & _).
    destruct (step_metrics_update _ _ _ _ _ _ Hupd Hs) as (Hp & _ & _ & Hmetrics).
    auto.
  - intros Hpush. destruct ev as [i|i data|i| |ep r|].
    + crush_step; reflexivity.
    + apply (step_message_frame _ _ _ _ _ Hs).
    + crush_step; reflexivity.
    + crush_step; reflexivity.
    + destruct (Hpush ep r eq_refl).
    + crush_step; reflexivity.
Qed.

Lemma C10_witness :
  exists st',
    step loaded_session 5
      (SockMessage 0%nat (JSONText (metrics_update_message (counts 12 5 5 22)))) = Some st' /\
    recentPosts (view st') = recentPosts (view loaded_session) /\
    trendData (view st') = trendData (view loaded_session).
Proof.
  eexists. split; [vm_compute; reflexivity|].
  destruct (C10_metrics_update_frame loaded_session 5
              (SockMessage 0%nat (JSONText (metrics_update_message (counts 12 5 5 22)))) _
              ltac:(vm_compute; reflexivity)) as [Hframe _].
  destruct (Hframe 0%nat (metrics_update_message (counts 12 5 5 22)) (counts 12 5 5 22)
              eq_refl
              (conj eq_refl (ex_intro _ (JObj [("last_24_hours", counts 12 5 5 22)])
                               (conj eq_refl eq_refl)))) as (Hp & Ht & _).
  split; [exact Hp | exact Ht].
Defined.

(** C8, as the code has it: [lastUpdate] is set to the receipt time by every
    frame that [JSON.parse] accepts, whatever its kind or shape, and is left
    alone by a frame that does not parse; a frame of any other kind changes
    nothing else. *)
Theorem C8_lastUpdate_on_every_parsed_frame
    (st : Dashboard) (dt : N) (i : nat) (data : MessageData) (st' : Dashboard) :
  mounted st = true ->
  step st dt (SockMessage i data) = Some st' ->
  (forall message, data = JSONText message -> lastUpdate (view st') = clock st + dt) /\
  (forall text, data = NotJSON text -> lastUpdate (view st') = lastUpdate (view st)) /\
  (forall message type,
      data = JSONText message ->
      JS.get message "type" = Normal type ->
      JS.strict_eq_str type "new_post" = false ->
      JS.strict_eq_str type "metrics_update" = false ->
      view st' = put_lastUpdate (clock st + dt) (view st)).
Proof.
  intros Hm Hs. repeat split.
  - intros message ->. exact (step_message_stamp _ _ _ _ _ Hm Hs).
  - intros text ->.
    rewrite (step_message_NotJSON _ _ _ _ (step_message_enabled _ _ _ _ _ Hs)) in Hs.
    injection Hs as <-. reflexivity.
  - intros message type -> Hty Hn Hu.
    rewrite (step_other_kind _ _ _ _ _ _ Hty Hn Hu Hs), Hm. reflexivity.
Qed.

Lemma C8_witness :
  exists st',
    step open_session 5 (SockMessage 0%nat (JSONText heartbeat_message)) = Some st' /\
    view st' = put_lastUpdate 15 (view open_session).
Proof.
  eexists. split; [vm_compute; reflexivity|].
  destruct (C8_lastUpdate_on_every_parsed_frame open_session 5 0%nat
              (JSONText heartbeat_message) _ eq_refl ltac:(vm_compute; reflexivity))
    as (_ & _ & Hother).
  exact (Hother heartbeat_message (JStr "heartbeat") eq_refl eq_refl eq_refl eq_refl).
Defined.

(** C8 as stated fails: a frame of another kind, and a [metrics_update]
    frame without payload, both move [lastUpdate] to the receipt time. *)
Lemma C8_counterexample :
  lastUpdate (view open_session) = 0 /\
  (exists st',
      step open_session 5 (SockMessage 0%nat (JSONText heartbeat_message)) = Some st' /\
      lastUpdate (view st') = 15) /\
  (exists st',
      step open_session 5 (SockMessage 0%nat (JSONText shapeless_metrics_update)) = Some st' /\
      lastUpdate (view st') = 15 /\
      console st' = console open_session ++ [Uncaught TypeError]).
Proof.
  split; [reflexivity|]. split; eexists; (split; [vm_compute; reflexivity|]).
  - reflexivity.
  - split; reflexivity.
Qed.

(** C9, as the code has it: a frame that does not parse changes no field of
    the view model and nothing of the connection; the handler ends with the
    [SyntaxError] of [JSON.parse], which the event loop reports on the
    console; the socket stays open and takes the next frame. *)
Theorem C9_unparseable_frame_dropped
    (st : Dashboard) (dt : N) (i : nat) (text : string) :
  sockets st !! i = Some OPEN ->
  exists st',
    step st dt (SockMessage i (NotJSON text)) = Some st' /\
    view st' = view st /\
    sockets st' = sockets st /\ timers st' = timers st /\
    ws_current st' = ws_current st /\ mounted st' = mounted st /\
    fetch st' = fetch st /\ requests st' = requests st /\
    snd (onmessage (NotJSON text) (tick dt st)) = Throw SyntaxError /\
    console st' = console st ++ [Uncaught SyntaxError] /\
    (forall dt' data, exists st'', step st' dt' (SockMessage i data) = Some st'').
Proof.
  intros Hopen. eexists. split; [apply (step_message_NotJSON _ _ _ _ Hopen)|].
  repeat split.
  intros dt' data. unfold step. state_simpl. rewrite Hopen. eexists; reflexivity.
Qed.

Lemma C9_witness :
  exists st',
    step open_session 5 (SockMessage 0%nat (NotJSON "{oops")) = Some st' /\
    view st' = view open_session.
Proof.
  destruct (C9_unparseable_frame_dropped open_session 5 0%nat "{oops" eq_refl)
    as (st' & Hs & Hv & _).
  exists st'. split; [exact Hs | exact Hv].
Defined.

(** C9 as stated fails: the handler does fail, with a [SyntaxError] nobody
    catches. *)
Lemma C9_counterexample :
  onmessage (NotJSON "{oops") (tick 5 open_session) = (tick 5 open_session, Throw SyntaxError) /\
  (exists st',
      step open_session 5 (SockMessage 0%nat (NotJSON "{oops")) = Some st' /\
      console st' = console open_session ++ [Uncaught SyntaxError]).
Proof.
  split; [reflexivity|]. eexists. split; [vm_compute; reflexivity | reflexivity].
Qed.

(** ** The metrics *)

Lemma strict_eq_str_true v s : JS.strict_eq_str v s = true -> v = JStr s.
Proof.
  destruct v; simpl; try discriminate. intros H. apply String.eqb_eq in H. congruence.
Qed.

Lemma balanced_snapshot_metrics distData dist t p n u :
  distribution_balanced distData dist ->
  JS.get distData "total" = Normal t -> JS.get dist "positive" = Normal p ->
  JS.get dist "negative" = Normal n -> JS.get dist "neutral" = Normal u ->
  balanced (JObj [("total", t); ("positive", p); ("negative", n); ("neutral", u)]).
Proof.
  intros (p' & n' & u' & t' & Hp & Hn & Hu & Ht & Hsum) Ht' Hp' Hn' Hu'.
  exists p', n', u', t'. simpl. repeat split; congruence.
Qed.

Lemma metrics_inv_step st dt ev st' :
  metrics_inv st -> payload_balanced ev -> step st dt ev = Some st' -> metrics_inv st'.
Proof.
  intros [Hb Hf] HQ Hs. unfold metrics_inv.
  destruct ev as [i|i data|i| |ep r|].
  - crush_step; auto.
  - destruct data as [text|message]; [crush_step; auto|].
    simpl in HQ.
    destruct (JS.get message "type") as [type|] eqn:Hty; [|crush_step; auto].
    destruct (JS.strict_eq_str type "metrics_update") eqn:Hu.
    + apply strict_eq_str_true in Hu. subst type.
      destruct (HQ eq_refl) as (snapshot & Hupd & Hbal).
      destruct (step_message_frame _ _ _ _ _ Hs) as (_ & _ & _ & _ & Hfetch & _).
      destruct (step_metrics_update _ _ _ _ _ _ Hupd Hs) as (_ & _ & _ & Hmetrics).
      rewrite Hfetch. split; [|exact Hf].
      destruct (mounted st) eqn:Hm; [rewrite (Hmetrics eq_refl); exact Hbal|].
      clear Hmetrics HQ Hupd. crush_step; auto; congruence.
    + clear HQ. crush_step; auto.
  - crush_step; auto.
  - crush_step; auto.
  - destruct ep, r as [body|]; simpl in HQ; try (crush_step; auto; fail).
    + destruct HQ as (dist & Hd & Hbal). crush_step; auto.
    + crush_step; auto; split; eauto using balanced_snapshot_metrics.
  - crush_step; auto.
Qed.

Lemma mount_metrics_inv t0 : metrics_inv (mount t0).
Proof.
  split; [|exact I]. exists 0%Z, 0%Z, 0%Z, 0%Z. repeat split.
Qed.

Lemma run_snoc st tr dt ev :
  run st (tr ++ [(dt, ev)]) =
    match run st tr with Some st' => step st' dt ev | None => None end.
Proof.
  rewrite run_app. destruct (run st tr) as [st'|]; [|reflexivity].
  simpl. destruct (step st' dt ev); reflexivity.
Qed.

(** Invariants that speak about the events seen so far. *)
Lemma run_invariant_trace (P : Trace -> Dashboard -> Prop) (st0 : Dashboard) :
  P [] st0 ->
  (forall tr st dt ev st',
      P tr st -> step st dt ev = Some st' -> P (tr ++ [(dt, ev)]) st') ->
  forall tr st, run st0 tr = Some st -> P tr st.
Proof.
  intros H0 Hstep tr. induction tr as [|[dt ev] tr IH] using rev_ind; intros st Hrun.
  - injection Hrun as <-. exact H0.
  - rewrite run_snoc in Hrun.
    destruct (run st0 tr) as [st1|]; [|discriminate].
    exact (Hstep tr st1 dt ev st (IH st1 eq_refl) Hrun).
Qed.

Lemma from_one_payload_snoc t0 tr e m :
  from_one_payload t0 tr m -> from_one_payload t0 (tr ++ [e]) m.
Proof.
  intros [H|(e' & Hin & Hsrc)]; [left; exact H|].
  right. exists e'. split; [apply in_or_app; left; exact Hin | exact Hsrc].
Qed.

Lemma from_one_payload_last t0 tr dt ev m :
  metrics_source ev m -> from_one_payload t0 (tr ++ [(dt, ev)]) m.
Proof.
  intros H. right. exists (dt, ev). split; [apply in_or_app; right; left; reflexivity | exact H].
Qed.

Lemma provenance_inv_step t0 tr st dt ev st' :
  provenance_inv t0 tr st -> step st dt ev = Some st' ->
  provenance_inv t0 (tr ++ [(dt, ev)]) st'.
Proof.
  intros [Hm Hf] Hs.
  assert (Hkeep : metrics (view st') = metrics (view st) -> fetch st' = fetch st ->
                  provenance_inv t0 (tr ++ [(dt, ev)]) st').
  { intros Em Ef. split.
    - rewrite Em. apply from_one_payload_snoc, Hm.
    - intros distData dist Hpc. rewrite Ef in Hpc.
      destruct (Hf distData dist Hpc) as (Hd & dt' & Hin).
      split; [exact Hd|]. exists dt'. apply in_or_app; left; exact Hin. }
  destruct ev as [i|i data|i| |ep r|].
  - apply Hkeep; crush_step; reflexivity.
  - destruct (step_message_frame _ _ _ _ _ Hs) as (_ & _ & _ & _ & Hfetch & _).
    split.
    + destruct data as [text|message].
      * replace (metrics (view st')) with (metrics (view st))
          by (crush_step; reflexivity).
        apply from_one_payload_snoc, Hm.
      * clear Hf Hkeep Hfetch.
        crush_step;
          try (apply from_one_payload_snoc, Hm);
          apply from_one_payload_last; simpl;
          match goal with
          | H : JS.strict_eq_str _ "metrics_update" = true |- _ =>
              apply strict_eq_str_true in H; subst
          end;
          split; eauto.
    + intros distData dist Hpc. rewrite Hfetch in Hpc.
      destruct (Hf distData dist Hpc) as (Hd & dt' & Hin).
      split; [exact Hd|]. exists dt'. apply in_or_app; left; exact Hin.
  - apply Hkeep; crush_step; reflexivity.
  - apply Hkeep; crush_step; reflexivity.
  - clear Hkeep. unfold provenance_inv.
    destruct (fetch st) as [|distData dist|distData dist|] eqn:Hpc;
      destruct ep; try (crush_step; fail).
    + crush_step; (split; [apply from_one_payload_snoc, Hm|]);
        intros distData dist [E|E]; try discriminate E.
      all: injection E as <- <-; (split; [assumption|]).
      all: exists dt; apply in_or_app; right; left; reflexivity.
    + destruct (Hf distData dist (or_introl eq_refl)) as (Hd & dt' & Hin).
      crush_step; (split; [apply from_one_payload_snoc, Hm|]);
        intros distData' dist' [E|E]; try discriminate E.
      all: injection E as <- <-; (split; [assumption|]).
      all: exists dt'; apply in_or_app; left; exact Hin.
    + destruct (Hf distData dist (or_intror eq_refl)) as (Hd & dt' & Hin).
      crush_step;
        (split; [|intros distData' dist' [E|E]; discriminate E]);
        try (apply from_one_payload_snoc, Hm).
      all: right; exists (dt', Response Distribution24h (Some distData));
        (split; [apply in_or_app; left; exact Hin|]);
        simpl; eauto 12.
  - apply Hkeep; crush_step; reflexivity.
Qed.

Lemma mount_provenance_inv t0 : provenance_inv t0 [] (mount t0).
Proof.
  split; [left; reflexivity|]. intros distData dist [E|E]; discriminate E.
Qed.

(** C4: in every state of a session whose server payloads are balanced,
    [metrics.positive + metrics.negative + metrics.neutral == metrics.total];
    and the metrics always are the initial zeros or come whole from one
    payload (one [metrics_update] snapshot, or the one distribution
    response), never from a merge. *)
Theorem C4_metrics_balanced (t0 : N) (tr : Trace) (st : Dashboard) :
  Forall (fun e => payload_balanced (snd e)) tr ->
  run (mount t0) tr = Some st ->
  balanced (metrics (view st)) /\
  from_one_payload t0 tr (metrics (view st)).
Proof.
  intros Hpay Hrun. split.
  - apply (run_invariant metrics_inv payload_balanced metrics_inv_step tr (mount t0) st
             Hpay (mount_metrics_inv t0) Hrun).
  - apply (run_invariant_trace (provenance_inv t0) (mount t0)
             (mount_provenance_inv t0) (provenance_inv_step t0) tr st Hrun).
Qed.

Lemma balanced_counts p n u : balanced (counts p n u (p + n + u)).
Proof. exists p, n, u, (p + n + u)%Z. repeat split. Qed.

Lemma C4_witness :
  metrics (view updated_session) = counts 12 5 5 22 /\ balanced (metrics (view updated_session)).
Proof.
  split; [reflexivity|].
  apply (C4_metrics_balanced 0 updated_trace updated_session); [|vm_compute; reflexivity].
  unfold updated_trace, loaded_trace. cbn [app].
  repeat (apply Forall_cons; split); try exact I; try apply Forall_nil.
  - exists (sentiment_counts 1 1 0). split; [reflexivity|].
    exists 1%Z, 1%Z, 0%Z, 2%Z. repeat split.
  - simpl. discriminate.
  - intros _. exists (counts 12 5 5 22). split.
    + split; [reflexivity|]. eexists. split; reflexivity.
    + apply (balanced_counts 12 5 5).
  - exact I.
Defined.

(** ** The connection *)

Lemma count_live_app ss ss' : count_live (ss ++ ss') = (count_live ss + count_live ss')%nat.
Proof. induction ss as [|s ss IH]; simpl; [reflexivity|]. rewrite IH. lia. Qed.

Lemma count_live_insert ss i s s' :
  ss !! i = Some s ->
  (count_live (<[i:=s']> ss) + (if live s then 1 else 0) =
   count_live ss + (if live s' then 1 else 0))%nat.
Proof.
  revert i. induction ss as [|s0 ss IH]; intros [|i] H; simpl in *; try discriminate.
  - injection H as ->. lia.
  - specialize (IH i H). lia.
Qed.

Lemma count_live_close_socket i ss : count_live (close_socket i ss) = count_live ss.
Proof.
  unfold close_socket. destruct (ss !! i) as [s|] eqn:H; [|reflexivity].
  destruct s; try reflexivity;
    pose proof (count_live_insert ss i _ CLOSING H) as E; simpl in E; lia.
Qed.

Lemma one_connection_step st dt ev st' :
  one_connection st -> step st dt ev = Some st' -> one_connection st'.
Proof.
  unfold one_connection. intros Hinv Hs.
  destruct ev as [i|i data|i| |ep r|]; crush_step;
    rewrite ?count_live_close_socket, ?count_live_app, ?length_app; simpl;
    try lia;
    match goal with
    | H : sockets _ !! _ = Some _ |- _ =>
        pose proof (count_live_insert _ _ _ OPEN H) as E1;
        pose proof (count_live_insert _ _ _ CLOSED H) as E2; simpl in *; lia
    end.
Qed.

Lemma mount_one_connection t0 : one_connection (mount t0).
Proof. reflexivity. Qed.

Lemma reachable_mount t0 : reachable (mount t0).
Proof. exists t0, []. reflexivity. Qed.

Lemma reachable_step st dt ev st' :
  reachable st -> step st dt ev = Some st' -> reachable st'.
Proof.
  intros (t0 & tr & Hrun) Hs. exists t0, (tr ++ [(dt, ev)]).
  rewrite run_snoc, Hrun. exact Hs.
Qed.

Lemma reachable_one_connection st : reachable st -> one_connection st.
Proof.
  intros (t0 & tr & Hrun).
  apply (run_invariant one_connection (fun _ => True)) with (tr := tr) (st := mount t0).
  - intros s dt ev s' H _ Hs. exact (one_connection_step _ _ _ _ H Hs).
  - apply Forall_forall. intros; exact I.
  - apply mount_one_connection.
  - exact Hrun.
Qed.

Lemma step_close st dt i s :
  sockets st !! i = Some s -> live s = true ->
  step st dt (SockClose i) =
    Some (with_timers (timers st ++ [clock st + dt + 3000])
            ((if mounted st then with_view (put_connectionStatus disconnected) else id)
               (with_sockets (<[i:=CLOSED]> (sockets st)) (tick dt st)))).
Proof.
  intros Hi Hl. unfold step. state_simpl. rewrite Hi.
  destruct s; try discriminate; unfold_handlers; simpl; destruct (mounted st); reflexivity.
Qed.

Lemma step_timer st dt due rest :
  timers st = due :: rest ->
  step st dt TimerFire =
    if due <=? clock st + dt
    then Some (with_ws_current (Some (length (sockets st)))
                 (with_sockets (sockets st ++ [CONNECTING])
                    (with_timers rest (tick dt st))))
    else None.
Proof.
  intros Ht. unfold step. state_simpl. rewrite Ht.
  destruct (due <=? clock st + dt); reflexivity.
Qed.

Lemma step_open st dt i :
  sockets st !! i = Some CONNECTING ->
  step st dt (SockOpen i) =
    Some (with_console (console st ++ [ConsoleLog "Connected to WebSocket"])
            ((if mounted st then with_view (put_connectionStatus connected) else id)
               (with_sockets (<[i:=OPEN]> (sockets st)) (tick dt st)))).
Proof.
  intros Hi. unfold step. state_simpl. rewrite Hi.
  unfold_handlers; simpl; destruct (mounted st); reflexivity.
Qed.

Lemma live_socket_no_timer st i s :
  one_connection st -> sockets st !! i = Some s -> live s = true ->
  timers st = [] /\ count_live (sockets st) = 1%nat.
Proof.
  unfold one_connection. intros Hinv Hi Hl.
  pose proof (count_live_insert (sockets st) i s CLOSED Hi) as E.
  rewrite Hl in E. simpl in E.
  destruct (timers st); simpl in *; [split; [reflexivity|lia] | lia].
Qed.

(** The whole cycle: close, wait, retry, open. *)
Lemma outage_cycle st i s dt :
  one_connection st -> mounted st = true ->
  sockets st !! i = Some s -> live s = true ->
  exists st1,
    step st dt (SockClose i) = Some st1 /\
    connectionStatus (view st1) = disconnected /\
    timers st1 = [clock st + dt + 3000] /\
    count_live (sockets st1) = 0%nat /\
    length (sockets st1) = length (sockets st) /\
    (forall dt', dt' < 3000 -> step st1 dt' TimerFire = None) /\
    (forall dt', 3000 <= dt' ->
       exists st2,
         step st1 dt' TimerFire = Some st2 /\
         connectionStatus (view st2) = disconnected /\
         timers st2 = [] /\
         sockets st2 = sockets st1 ++ [CONNECTING] /\
         ws_current st2 = Some (length (sockets st1)) /\
         (forall dt'', exists st3,
            step st2 dt'' (SockOpen (length (sockets st1))) = Some st3 /\
            connectionStatus (view st3) = connected /\
            mounted st3 = true /\ timers st3 = [] /\
            sockets st3 !! length (sockets st) = Some OPEN /\
            length (sockets st3) = S (length (sockets st)))).
Proof.
  intros Hinv Hm Hi Hl.
  destruct (live_socket_no_timer _ _ _ Hinv Hi Hl) as [Ht Hc].
  pose proof (count_live_insert (sockets st) i s CLOSED Hi) as E.
  rewrite Hl in E; simpl in E.
  eexists. split; [apply (step_close _ _ _ _ Hi Hl)|].
  rewrite Hm, Ht. state_simpl.
  split; [reflexivity|]. split; [reflexivity|]. split; [lia|].
  split; [apply length_insert|]. split.
  - intros dt' Hlt. erewrite step_timer by reflexivity. state_simpl.
    destruct (N.leb_spec (clock st + dt + 3000) (clock st + dt + dt')); [lia | reflexivity].
  - intros dt' Hge. erewrite step_timer by reflexivity. state_simpl.
    destruct (N.leb_spec (clock st + dt + 3000) (clock st + dt + dt')); [|lia].
    eexists. split; [reflexivity|]. state_simpl.
    split; [reflexivity|]. split; [reflexivity|]. split; [reflexivity|].
    split; [reflexivity|].
    intros dt''. eexists. split.
    + apply step_open. state_simpl.
      rewrite lookup_app_r by reflexivity. rewrite Nat.sub_diag. reflexivity.
    + state_simpl. rewrite Hm. state_simpl.
      split; [reflexivity|]. split; [exact Hm|]. split; [reflexivity|].
      rewrite !length_insert, length_app, !length_insert. simpl.
      split; [|lia].
      rewrite list_lookup_insert_eq by (rewrite length_app, length_insert; simpl; lia).
      reflexivity.
Qed.

Lemma run_outages n :
  forall st i s,
    one_connection st -> mounted st = true ->
    sockets st !! i = Some s -> live s = true ->
    exists st',
      run st (outages i (length (sockets st)) n) = Some st' /\
      length (sockets st') = (length (sockets st) + n)%nat /\
      mounted st' = true /\
      (n <> 0%nat -> connectionStatus (view st') = connected).
Proof.
  induction n as [|n IH]; intros st i s Hinv Hm Hi Hl.
  - exists st. simpl. repeat split; [lia | exact Hm | congruence].
  - destruct (outage_cycle st i s 1 Hinv Hm Hi Hl)
      as (st1 & H1 & _ & _ & _ & Hlen1 & _ & Hretry).
    destruct (Hretry 3000 ltac:(lia)) as (st2 & H2 & _ & _ & _ & _ & Hopen).
    destruct (Hopen 1) as (st3 & H3 & Hc3 & Hm3 & _ & Hi3 & Hlen3).
    rewrite Hlen1 in H3.
    assert (Hinv3 : one_connection st3)
      by eauto using one_connection_step.
    destruct (IH st3 (length (sockets st)) OPEN Hinv3 Hm3 Hi3 eq_refl)
      as (st' & Hrun & Hlen & Hm' & Hc').
    exists st'. cbn [outages]. rewrite run_app. cbn [run].
    rewrite H1, H2, H3. rewrite Hlen3 in Hrun, Hlen.
    split; [exact Hrun|]. split; [lia|]. split; [exact Hm'|].
    intros _. destruct n as [|n]; [|apply Hc'; congruence].
    simpl in Hrun. injection Hrun as <-. exact Hc3.
Qed.

Lemma never_back_to_connecting st dt ev st' :
  step st dt ev = Some st' ->
  connectionStatus (view st) <> connecting ->
  connectionStatus (view st') <> connecting.
Proof. intros Hs Hc. crush_step; congruence. Qed.

(** C5, as the code has it: when the channel closes, [connectionStatus]
    becomes [disconnected] at once and one retry is scheduled 3000 ms later,
    neither sooner nor with any growth; the retry opens a new socket while
    the status stays [disconnected] (the code sets [connecting] nowhere, it
    is the initial value only), and the status becomes [connected] when that
    socket opens.  There is at any time one live socket or one pending
    retry, never two, and the cycle repeats any number of times. *)
Theorem C5_fixed_delay_reconnect (st : Dashboard) (i : nat) (s : ReadyState) (dt : N) :
  reachable st -> mounted st = true ->
  sockets st !! i = Some s -> live s = true ->
  one_connection st /\
  (exists st1,
    step st dt (SockClose i) = Some st1 /\
    connectionStatus (view st1) = disconnected /\
    timers st1 = [clock st + dt + 3000] /\
    count_live (sockets st1) = 0%nat /\
    (forall dt', dt' < 3000 -> step st1 dt' TimerFire = None) /\
    (forall dt', 3000 <= dt' ->
       exists st2,
         step st1 dt' TimerFire = Some st2 /\
         connectionStatus (view st2) = disconnected /\
         timers st2 = [] /\
         sockets st2 = sockets st1 ++ [CONNECTING] /\
         (forall dt'', exists st3,
            step st2 dt'' (SockOpen (length (sockets st1))) = Some st3 /\
            connectionStatus (view st3) = connected /\
            reachable st3 /\ one_connection st3))) /\
  (forall n, exists st',
      run st (outages i (length (sockets st)) n) = Some st' /\
      length (sockets st') = (length (sockets st) + n)%nat /\
      (n <> 0%nat -> connectionStatus (view st') = connected)) /\
  (forall dt' ev st',
      step st dt' ev = Some st' ->
      connectionStatus (view st) <> connecting ->
      connectionStatus (view st') <> connecting).
Proof.
  intros Hreach Hm Hi Hl.
  pose proof (reachable_one_connection st Hreach) as Hinv.
  split; [exact Hinv|]. split; [|split].
  - destruct (outage_cycle st i s dt Hinv Hm Hi Hl)
      as (st1 & H1 & Hc1 & Ht1 & Hl1 & Hlen1 & Hearly & Hretry).
    exists st1. repeat (split; [assumption|]).
    intros dt' Hge.
    destruct (Hretry dt' Hge) as (st2 & H2 & Hc2 & Ht2 & Hs2 & _ & Hopen).
    exists st2. repeat (split; [assumption|]).
    intros dt''. destruct (Hopen dt'') as (st3 & H3 & Hc3 & _).
    exists st3. split; [exact H3|]. split; [exact Hc3|].
    assert (reachable st3) by eauto using reachable_step.
    split; [assumption|]. apply reachable_one_connection; assumption.
  - intros n. destruct (run_outages n st i s Hinv Hm Hi Hl) as (st' & Hrun & Hlen & _ & Hc).
    exists st'. auto.
  - intros dt' ev st' Hs. exact (never_back_to_connecting _ _ _ _ Hs).
Qed.

(** C5 as stated fails: three seconds after the close the retry has created
    a new socket, and [connectionStatus] is [disconnected], not
    [connecting]; it goes from [disconnected] to [connected] directly. *)
Lemma C5_counterexample :
  run (mount 0) outage_trace = Some retrying_session /\
  sockets retrying_session = [CLOSED; CONNECTING] /\
  connectionStatus (view retrying_session) = disconnected /\
  connectionStatus (view retrying_session) <> connecting /\
  status_history (mount 0) (outage_trace ++ [(25, SockOpen 1%nat)]) =
    [connected; disconnected; disconnected; connected].
Proof.
  split; [vm_compute; reflexivity|]. split; [reflexivity|].
  split; [reflexivity|]. split; [discriminate|]. vm_compute. reflexivity.
Qed.

Lemma C5_witness :
  one_connection open_session /\
  exists st',
    run open_session (outages 0 1 3) = Some st' /\
    length (sockets st') = 4%nat /\
    connectionStatus (view st') = connected.
Proof.
  destruct (C5_fixed_delay_reconnect open_session 0%nat OPEN 500) as (Hone & _ & Hloop & _).
  - exists 0, [(10, SockOpen 0%nat)]. vm_compute. reflexivity.
  - reflexivity.
  - reflexivity.
  - reflexivity.
  - split; [exact Hone|].
    destruct (Hloop 3%nat) as (st' & Hrun & Hlen & Hc).
    exists st'. split; [exact Hrun|]. split; [exact Hlen|]. apply Hc. discriminate.
Defined.

(** ** Teardown *)

(** After the unmount no setter reaches the view model any more. *)
Lemma view_frozen_after_unmount st dt ev st' :
  mounted st = false -> step st dt ev = Some st' ->
  view st' = view st /\ mounted st' = false.
Proof. intros Hm Hs. crush_step; split; reflexivity || congruence. Qed.

(** Closing twice is closing once. *)
Lemma cleanup_idempotent st :
  fst (cleanup (fst (cleanup st))) = fst (cleanup st).
Proof.
  unfold cleanup, bind, read, modify, ret. simpl.
  destruct (ws_current st) as [i|] eqn:Hcur; simpl; [|rewrite Hcur; reflexivity].
  rewrite Hcur. unfold with_sockets. simpl. f_equal.
  unfold close_socket.
  destruct (sockets st !! i) as [s|] eqn:Hi; [|rewrite Hi; reflexivity].
  destruct s; rewrite ?Hi; try reflexivity;
    (rewrite list_lookup_insert_eq by (eapply lookup_lt_Some; eassumption));
    reflexivity.
Qed.

(** The cleanup leaves the pending timers where they are. *)
Lemma unmount_keeps_timers st dt st' :
  step st dt Unmount = Some st' -> timers st' = timers st.
Proof. intros Hs. crush_step; reflexivity. Qed.

(** C6 fails on the code: after the teardown the close event of the socket
    schedules a retry, the retry opens a new socket, and that socket
    connects; a retry pending at the teardown fires as well. *)
Theorem C6_reconnects_after_teardown :
  (run (mount 0) teardown_trace = Some zombie_session /\
   mounted zombie_session = false /\
   sockets zombie_session = [CLOSED; OPEN] /\
   ws_current zombie_session = Some 1%nat) /\
  (run (mount 0) teardown_trace_pending = Some zombie_session_pending /\
   mounted zombie_session_pending = false /\
   sockets zombie_session_pending = [CLOSED; CONNECTING]).
Proof.
  split; (split; [vm_compute; reflexivity|]); repeat split.
Qed.

(** ** The snapshot *)

(** Only a response moves [fetchData] on. *)
Lemma step_keeps_fetch st dt ev st' :
  (forall ep r, ev <> Response ep r) -> step st dt ev = Some st' ->
  fetch st' = fetch st /\ requests st' = requests st.
Proof.
  intros Hne Hs. destruct ev as [i|i data|i| |ep r|];
    try (crush_step; split; reflexivity).
  destruct (Hne ep r eq_refl).
Qed.

Ltac keep_fetch Hs :=
  match type of Hs with
  | step ?st ?dt ?ev = Some ?st' =>
      let H := fresh in
      assert (H : forall ep r, ev <> Response ep r) by (intros; discriminate);
      destruct (step_keeps_fetch st dt ev st' H Hs) as [-> ->]
  end.

Lemma requests_in_sequence_step st dt ev st' :
  requests_in_sequence st -> step st dt ev = Some st' -> requests_in_sequence st'.
Proof.
  unfold requests_in_sequence. intros Hinv Hs.
  destruct ev as [i|i data|i| |ep r|];
    try (keep_fetch Hs; exact Hinv).
  destruct (fetch st) as [|distData dist|distData dist|] eqn:Hpc;
    crush_step; rewrite ?Hinv; auto.
Qed.

Lemma settled_takes_no_response st dt ep r :
  fetch st = FetchIdle -> step st dt (Response ep r) = None.
Proof. intros Hf. unfold step. state_simpl. rewrite Hf. reflexivity. Qed.

Lemma fetch_distribution_rejected t0 d1 :
  run (mount t0) [(d1, Response Distribution24h None)] =
    Some (with_fetch FetchIdle (with_console [fetch_failure] (tick d1 (mount t0)))).
Proof. reflexivity. Qed.

Lemma mount_eq t0 :
  mount t0 =
    {| view := initial_view t0; mounted := true; ws_current := Some 0%nat;
       sockets := [CONNECTING]; timers := []; fetch := AwaitDistribution;
       requests := [Distribution24h]; console := []; clock := t0 |}.
Proof. reflexivity. Qed.

Ltac fetch_step Hpc :=
  unfold step; state_simpl; rewrite Hpc; cbn [awaited Endpoint_eqb];
  unfold dispatch, fetchData_resume, bind, read; state_simpl; rewrite Hpc;
  cbv beta iota zeta delta
    [fetchData_after_distribution fetchData_after_trend fetchData_after_posts
     fetchData_catch try_catch bind read lift await ret throw modify
     setDistributionData setTrendData setRecentPosts setMetrics set_state
     axios_get console_error when_mounted].

Lemma step_rejected st dt ep :
  awaited (fetch st) = Some ep ->
  step st dt (Response ep None) =
    Some (with_fetch FetchIdle
            (with_console (console st ++ [fetch_failure]) (tick dt st))).
Proof.
  intros Hpc. destruct (fetch st) eqn:E; simpl in Hpc; try discriminate;
    injection Hpc as <-; fetch_step E; reflexivity.
Qed.

Lemma step_distribution st dt distData dist t p n u :
  fetch st = AwaitDistribution -> distribution_ok distData dist t p n u ->
  step st dt (Response Distribution24h (Some distData)) =
    Some (with_fetch (AwaitTrend distData dist)
            (with_requests (requests st ++ [AggregateHourly])
               (when_mounted st (put_distributionData (distribution_rows p n u))
                  (tick dt st)))).
Proof.
  intros Hpc (Hd & Ht & Hp & Hn & Hu). fetch_step Hpc.
  rewrite Hd, Hp, Hn, Hu. state_simpl. destruct (mounted st); reflexivity.
Qed.

Lemma step_trend st dt distData dist trendBody mapped :
  fetch st = AwaitTrend distData dist -> trend_ok trendBody mapped ->
  step st dt (Response AggregateHourly (Some trendBody)) =
    Some (with_fetch (AwaitPosts distData dist)
            (with_requests (requests st ++ [Posts50])
               (when_mounted st (put_trendData mapped) (tick dt st)))).
Proof.
  intros Hpc (rows & Hr & Hmap). fetch_step Hpc.
  rewrite Hr, Hmap. state_simpl. destruct (mounted st); reflexivity.
Qed.

Lemma step_posts st dt distData dist t p n u postsBody posts :
  fetch st = AwaitPosts distData dist -> distribution_ok distData dist t p n u ->
  posts_ok postsBody posts ->
  step st dt (Response Posts50 (Some postsBody)) =
    Some (with_fetch FetchIdle
            (when_mounted st
               (fun v => put_metrics (JObj [("total", t); ("positive", p);
                                            ("negative", n); ("neutral", u)])
                           (put_recentPosts posts v))
               (tick dt st))).
Proof.
  intros Hpc (Hd & Ht & Hp & Hn & Hu) Hposts. fetch_step Hpc.
  unfold posts_ok in Hposts. rewrite Hposts. state_simpl.
  rewrite Ht, Hp, Hn, Hu. destruct (mounted st) eqn:Hm; state_simpl; rewrite ?Hm; reflexivity.
Qed.

Lemma fetch_trend_rejected t0 d1 d2 distData dist t p n u :
  distribution_ok distData dist t p n u ->
  run (mount t0) [(d1, Response Distribution24h (Some distData));
                 (d2, Response AggregateHourly None)] =
    Some {| view := put_distributionData (distribution_rows p n u) (initial_view t0);
            mounted := true; ws_current := Some 0%nat; sockets := [CONNECTING];
            timers := []; fetch := FetchIdle;
            requests := [Distribution24h; AggregateHourly];
            console := [fetch_failure]; clock := t0 + d1 + d2 |}.
Proof.
  intros Hdist. cbn [run].
  rewrite (step_distribution (mount t0) _ _ _ _ _ _ _ eq_refl Hdist).
  erewrite step_rejected by reflexivity. reflexivity.
Qed.

Lemma fetch_posts_rejected t0 d1 d2 d3 distData dist t p n u trendBody mapped :
  distribution_ok distData dist t p n u -> trend_ok trendBody mapped ->
  run (mount t0) [(d1, Response Distribution24h (Some distData));
                 (d2, Response AggregateHourly (Some trendBody));
                 (d3, Response Posts50 None)] =
    Some {| view := put_trendData mapped
                      (put_distributionData (distribution_rows p n u) (initial_view t0));
            mounted := true; ws_current := Some 0%nat; sockets := [CONNECTING];
            timers := []; fetch := FetchIdle;
            requests := [Distribution24h; AggregateHourly; Posts50];
            console := [fetch_failure]; clock := t0 + d1 + d2 + d3 |}.
Proof.
  intros Hdist Htrend. cbn [run].
  rewrite (step_distribution (mount t0) _ _ _ _ _ _ _ eq_refl Hdist).
  erewrite step_trend by (reflexivity || eassumption).
  erewrite step_rejected by reflexivity. reflexivity.
Qed.

Lemma fetch_all_resolved t0 d1 d2 d3 distData dist t p n u trendBody mapped postsBody posts :
  distribution_ok distData dist t p n u -> trend_ok trendBody mapped ->
  posts_ok postsBody posts ->
  run (mount t0) [(d1, Response Distribution24h (Some distData));
                 (d2, Response AggregateHourly (Some trendBody));
                 (d3, Response Posts50 (Some postsBody))] =
    Some {| view :=
              put_metrics (JObj [("total", t); ("positive", p);
                                 ("negative", n); ("neutral", u)])
                (put_recentPosts posts
                   (put_trendData mapped
                      (put_distributionData (distribution_rows p n u) (initial_view t0))));
            mounted := true; ws_current := Some 0%nat; sockets := [CONNECTING];
            timers := []; fetch := FetchIdle;
            requests := [Distribution24h; AggregateHourly; Posts50];
            console := []; clock := t0 + d1 + d2 + d3 |}.
Proof.
  intros Hdist Htrend Hposts. cbn [run].
  rewrite (step_distribution (mount t0) _ _ _ _ _ _ _ eq_refl Hdist).
  erewrite step_trend by (reflexivity || eassumption).
  erewrite step_posts by (reflexivity || eassumption). reflexivity.
Qed.

Lemma mount_requests_in_sequence t0 : requests_in_sequence (mount t0).
Proof. reflexivity. Qed.

(** C7, as the code has it: the three requests are sent one after another
    inside one [try], each after the previous one succeeded.  A failing
    request is logged once and ends the load: no later request is sent, what
    was stored before stays (the distribution rows after the first response,
    the trend after the second), and the rest stays at its initial value;
    the metrics are stored last, so they stay at zero unless all three
    requests succeed.  Nothing is ever requested twice. *)
Theorem C7_snapshot_in_sequence
    (t0 d1 d2 d3 : N) (distData dist t p n u trendBody : JSValue)
    (mapped : list JSValue) (postsBody posts : JSValue) :
  distribution_ok distData dist t p n u ->
  trend_ok trendBody mapped ->
  posts_ok postsBody posts ->
  let D := Response Distribution24h in
  let A := Response AggregateHourly in
  let P := Response Posts50 in
  let rows := distribution_rows p n u in
  (exists st,
      run (mount t0) [(d1, D None)] = Some st /\
      view st = initial_view t0 /\
      requests st = [Distribution24h] /\
      console st = [fetch_failure] /\ fetch st = FetchIdle) /\
  (exists st,
      run (mount t0) [(d1, D (Some distData)); (d2, A None)] = Some st /\
      view st = put_distributionData rows (initial_view t0) /\
      requests st = [Distribution24h; AggregateHourly] /\
      console st = [fetch_failure] /\ fetch st = FetchIdle) /\
  (exists st,
      run (mount t0) [(d1, D (Some distData)); (d2, A (Some trendBody)); (d3, P None)]
        = Some st /\
      view st = put_trendData mapped (put_distributionData rows (initial_view t0)) /\
      requests st = [Distribution24h; AggregateHourly; Posts50] /\
      console st = [fetch_failure] /\ fetch st = FetchIdle) /\
  (exists st,
      run (mount t0) [(d1, D (Some distData)); (d2, A (Some trendBody));
                      (d3, P (Some postsBody))] = Some st /\
      view st =
        put_metrics (JObj [("total", t); ("positive", p); ("negative", n); ("neutral", u)])
          (put_recentPosts posts
             (put_trendData mapped (put_distributionData rows (initial_view t0)))) /\
      requests st = [Distribution24h; AggregateHourly; Posts50] /\
      console st = [] /\ fetch st = FetchIdle) /\
  (forall tr st,
      run (mount t0) tr = Some st ->
      requests_in_sequence st /\
      (fetch st = FetchIdle -> forall dt ep r, step st dt (Response ep r) = None)).
Proof.
  intros Hdist Htrend Hposts D A P rows.
  split; [|split; [|split; [|split]]].
  - eexists. split; [apply fetch_distribution_rejected|]. repeat split.
  - eexists. split; [apply (fetch_trend_rejected _ _ _ _ _ _ _ _ _ Hdist)|]. repeat split.
  - eexists. split; [apply (fetch_posts_rejected _ _ _ _ _ _ _ _ _ _ _ _ Hdist Htrend)|].
    repeat split.
  - eexists.
    split; [apply (fetch_all_resolved _ _ _ _ _ _ _ _ _ _ _ _ _ _ Hdist Htrend Hposts)|].
    repeat split.
  - intros tr st Hrun. split.
    + apply (run_invariant requests_in_sequence (fun _ => True))
        with (tr := tr) (st := mount t0).
      * intros s dt ev s' Hinv _ Hs. exact (requests_in_sequence_step _ _ _ _ Hinv Hs).
      * apply Forall_forall. intros; exact I.
      * apply mount_requests_in_sequence.
      * exact Hrun.
    + intros Hidle dt ep r. exact (settled_takes_no_response _ _ _ _ Hidle).
Qed.

Lemma C7_witness :
  exists st,
    run (mount 0) [(5, Response Distribution24h (Some sample_distribution));
                   (5, Response AggregateHourly (Some sample_trend));
                   (5, Response Posts50 None)] = Some st /\
    requests st = [Distribution24h; AggregateHourly; Posts50] /\
    console st = [fetch_failure] /\
    metrics (view st) = metrics (initial_view 0).
Proof.
  destruct (C7_snapshot_in_sequence 0 5 5 5 sample_distribution (sentiment_counts 1 1 0)
              (JNum 2) (JNum 1) (JNum 1) (JNum 0) sample_trend
              [trend_point "2025-01-01T10:00:00" 1 1 0]
              sample_posts (JArr [post 2; post 1]))
    as (_ & _ & (st & Hrun & Hview & Hreq & Hlog & _) & _).
  - repeat split.
  - eexists. split; reflexivity.
  - reflexivity.
  - exists st. split; [exact Hrun|]. split; [exact Hreq|]. split; [exact Hlog|].
    rewrite Hview. reflexivity.
Defined.

(** C7 as stated fails.  When the first request is rejected the other two
    are never sent, so their sections stay empty without having failed;
    when the third is rejected the metrics stay at zero although the
    distribution request succeeded. *)
Lemma C7_counterexample :
  (exists st,
      run (mount 0) [(5, Response Distribution24h None)] = Some st /\
      requests st = [Distribution24h] /\
      step st 5 (Response AggregateHourly (Some sample_trend)) = None /\
      step st 5 (Response Posts50 (Some sample_posts)) = None /\
      trendData (view st) = [] /\ recentPosts (view st) = JArr []) /\
  (exists st,
      run (mount 0) [(5, Response Distribution24h (Some sample_distribution));
                     (5, Response AggregateHourly (Some sample_trend));
                     (5, Response Posts50 None)] = Some st /\
      metrics (view st) = counts_zero /\
      distributionData (view st) = distribution_rows (JNum 1) (JNum 1) (JNum 0)).
Proof.
  split; eexists; (split; [vm_compute; reflexivity|]); repeat split.
Qed.

(** * Proofs of the further properties *)

(** ** More on messages *)

Lemma get_nullish v k : nullish v = true -> JS.get v k = Throw TypeError.
Proof. destruct v; simpl; try discriminate; reflexivity. Qed.

Lemma get_not_nullish v k : nullish v = false -> exists w, JS.get v k = Normal w.
Proof. destruct v; simpl; try discriminate; eauto. Qed.

(** X1: a [new_post] frame changes the feed and [lastUpdate] only: the
    metrics, the distribution rows, the trend and the connection status are
    as before. *)
Theorem X1_new_post_frame
    (st : Dashboard) (dt : N) (i : nat) (message post : JSValue) (st' : Dashboard) :
  is_new_post message post ->
  step st dt (SockMessage i (JSONText message)) = Some st' ->
  metrics (view st') = metrics (view st) /\
  distributionData (view st') = distributionData (view st) /\
  trendData (view st') = trendData (view st) /\
  connectionStatus (view st') = connectionStatus (view st).
Proof.
  intros [Hty Hd] Hs.
  unfold step in Hs. state_simpl.
  destruct (sockets st !! i) as [[]|]; try discriminate.
  unfold dispatch, onmessage, JSON_parse, bind, ret, read, lift in Hs.
  rewrite Hty in Hs. cbn [JS.strict_eq_str String.eqb Ascii.eqb Bool.eqb] in Hs.
  crush_step; repeat split; reflexivity.
Qed.

Lemma X1_witness :
  exists st',
    step loaded_session 7 (SockMessage 0%nat (JSONText (new_post_message (post 3))))
      = Some st' /\
    metrics (view st') = metrics (view loaded_session) /\
    trendData (view st') = trendData (view loaded_session).
Proof.
  eexists. split; [vm_compute; reflexivity|].
  destruct (X1_new_post_frame loaded_session 7 0%nat (new_post_message (post 3)) (post 3) _
              (conj eq_refl eq_refl) ltac:(vm_compute; reflexivity))
    as (Hm & _ & Ht & _).
  split; [exact Hm | exact Ht].
Defined.

(** What a [metrics_update] frame does to a mounted component. *)
Lemma step_metrics_update_view st dt i message snapshot st' :
  mounted st = true -> is_metrics_update message snapshot ->
  step st dt (SockMessage i (JSONText message)) = Some st' ->
  view st' =
    put_distributionData
      (match snapshot_rows snapshot with
       | Normal rows => rows
       | Throw _ => distributionData (view st)
       end)
      (put_metrics snapshot (put_lastUpdate (clock st + dt) (view st))) /\
  mounted st' = true /\ sockets st' = sockets st.
Proof.
  intros Hm (Hty & d & Hd & Hsnap) Hs.
  unfold step in Hs. state_simpl.
  destruct (sockets st !! i) as [[]|]; try discriminate.
  unfold dispatch, onmessage, JSON_parse, bind, ret, read, lift in Hs.
  rewrite Hty in Hs. cbn [JS.strict_eq_str String.eqb Ascii.eqb Bool.eqb] in Hs.
  rewrite Hd, Hsnap in Hs. unfold snapshot_rows, and_then.
  crush_step; repeat split; try reflexivity; congruence.
Qed.

(** X2: replaying a [metrics_update] frame changes nothing but
    [lastUpdate]: after the second application the metrics and the
    distribution rows are what the first one left. *)
Theorem X2_metrics_update_replay
    (st : Dashboard) (dt1 dt2 : N) (i : nat) (message snapshot : JSValue)
    (st1 st2 : Dashboard) :
  mounted st = true ->
  is_metrics_update message snapshot ->
  step st dt1 (SockMessage i (JSONText message)) = Some st1 ->
  step st1 dt2 (SockMessage i (JSONText message)) = Some st2 ->
  view st2 = put_lastUpdate (clock st1 + dt2) (view st1).
Proof.
  intros Hm Hupd H1 H2.
  destruct (step_metrics_update_view _ _ _ _ _ _ Hm Hupd H1) as (Hv1 & Hm1 & _).
  destruct (step_metrics_update_view _ _ _ _ _ _ Hm1 Hupd H2) as (Hv2 & _ & _).
  rewrite Hv2, Hv1. destruct (snapshot_rows snapshot); reflexivity.
Qed.

Lemma X2_witness :
  exists st1 st2,
    step loaded_session 7
      (SockMessage 0%nat (JSONText (metrics_update_message (counts 12 5 5 22)))) = Some st1 /\
    step st1 9
      (SockMessage 0%nat (JSONText (metrics_update_message (counts 12 5 5 22)))) = Some st2 /\
    view st2 = put_lastUpdate (clock st1 + 9) (view st1).
Proof.
  eexists. eexists. split; [vm_compute; reflexivity|]. split; [vm_compute; reflexivity|].
  apply (X2_metrics_update_replay loaded_session 7 9 0%nat
           (metrics_update_message (counts 12 5 5 22)) (counts 12 5 5 22)).
  - reflexivity.
  - split; [reflexivity|]. eexists. split; reflexivity.
  - vm_compute. reflexivity.
  - vm_compute. reflexivity.
Defined.

(** X3: after a [metrics_update] frame whose snapshot is an object (or any
    value but [undefined] and [null]) the three distribution rows carry the
    [positive], [negative] and [neutral] of the new metrics, and the
    handler raises nothing. *)
Theorem X3_rows_follow_metrics
    (st : Dashboard) (dt : N) (i : nat) (message snapshot : JSValue) (st' : Dashboard) :
  mounted st = true ->
  is_metrics_update message snapshot ->
  nullish snapshot = false ->
  step st dt (SockMessage i (JSONText message)) = Some st' ->
  exists p n u,
    JS.get (metrics (view st')) "positive" = Normal p /\
    JS.get (metrics (view st')) "negative" = Normal n /\
    JS.get (metrics (view st')) "neutral" = Normal u /\
    distributionData (view st') =
      [ {| name := "Positive"; value := p |};
        {| name := "Negative"; value := n |};
        {| name := "Neutral"; value := u |} ] /\
    console st' = console st.
Proof.
  intros Hm Hupd Hnn Hs.
  destruct (step_metrics_update_view _ _ _ _ _ _ Hm Hupd Hs) as (Hv & _ & _).
  destruct (get_not_nullish snapshot "positive" Hnn) as (p & Hp).
  destruct (get_not_nullish snapshot "negative" Hnn) as (n & Hn).
  destruct (get_not_nullish snapshot "neutral" Hnn) as (u & Hu).
  exists p, n, u. rewrite Hv. state_simpl.
  unfold snapshot_rows. rewrite Hp, Hn, Hu. simpl.
  repeat split; try assumption.
  clear Hv. destruct Hupd as (Hty & d & Hd & Hsnap).
  unfold step in Hs. state_simpl.
  destruct (sockets st !! i) as [[]|]; try discriminate.
  unfold dispatch, onmessage, JSON_parse, bind, ret, read, lift in Hs.
  rewrite Hty in Hs. cbn [JS.strict_eq_str String.eqb Ascii.eqb Bool.eqb] in Hs.
  rewrite Hd, Hsnap in Hs.
  unfold_handlers. simpl in Hs. rewrite Hm in Hs. simpl in Hs.
  rewrite Hp, Hn, Hu in Hs. simpl in Hs.
  injection Hs as <-. simpl. rewrite Hm. simpl. rewrite ?Hm. reflexivity.
Qed.

Lemma X3_witness :
  exists st',
    step loaded_session 7
      (SockMessage 0%nat (JSONText (metrics_update_message (counts 12 5 5 22)))) = Some st' /\
    distributionData (view st') = distribution_rows (JNum 12) (JNum 5) (JNum 5).
Proof.
  eexists. split; [vm_compute; reflexivity|].
  destruct (X3_rows_follow_metrics loaded_session 7 0%nat
              (metrics_update_message (counts 12 5 5 22)) (counts 12 5 5 22) _
              eq_refl
              (conj eq_refl (ex_intro _ (JObj [("last_24_hours", counts 12 5 5 22)])
                               (conj eq_refl eq_refl)))
              eq_refl ltac:(vm_compute; reflexivity))
    as (p & n & u & Hp & Hn & Hu & Hrows & _).
  injection Hp as <-. injection Hn as <-. injection Hu as <-. exact Hrows.
Defined.

(** X4: a [metrics_update] frame with a key missing.  Without [data] the
    handler throws before any metric is touched; with [data] but without
    [last_24_hours] (or with it [null]) the metrics are replaced by that
    [undefined] (or [null]), the distribution rows stay, and the handler
    throws.  In both cases [lastUpdate] has moved. *)
Theorem X4_metrics_update_missing_keys
    (st : Dashboard) (dt : N) (i : nat) (message : JSValue) (st' : Dashboard) :
  mounted st = true ->
  JS.get message "type" = Normal (JStr "metrics_update") ->
  step st dt (SockMessage i (JSONText message)) = Some st' ->
  (forall d, JS.get message "data" = Normal d -> nullish d = true ->
     view st' = put_lastUpdate (clock st + dt) (view st) /\
     console st' = console st ++ [Uncaught TypeError]) /\
  (forall d snapshot,
     JS.get message "data" = Normal d ->
     JS.get d "last_24_hours" = Normal snapshot -> nullish snapshot = true ->
     view st' = put_metrics snapshot (put_lastUpdate (clock st + dt) (view st)) /\
     console st' = console st ++ [Uncaught TypeError]).
Proof.
  intros Hm Hty Hs.
  unfold step in Hs. state_simpl.
  destruct (sockets st !! i) as [[]|]; try discriminate.
  unfold dispatch, onmessage, JSON_parse, bind, ret, read, lift in Hs.
  rewrite Hty in Hs. cbn [JS.strict_eq_str String.eqb Ascii.eqb Bool.eqb] in Hs.
  split.
  - intros d Hd Hnull. rewrite Hd, (get_nullish d _ Hnull) in Hs.
    unfold_handlers. simpl in Hs. rewrite Hm in Hs. simpl in Hs.
    injection Hs as <-. rewrite ?Hm. simpl. rewrite ?Hm. split; reflexivity.
  - intros d snapshot Hd Hsnap Hnull. rewrite Hd, Hsnap in Hs.
    unfold_handlers. simpl in Hs. rewrite Hm in Hs. simpl in Hs.
    rewrite (get_nullish snapshot _ Hnull) in Hs. simpl in Hs.
    injection Hs as <-. rewrite ?Hm. simpl. rewrite ?Hm. split; reflexivity.
Qed.

Lemma X4_witness :
  exists st',
    step loaded_session 7 (SockMessage 0%nat (JSONText update_without_snapshot)) = Some st' /\
    metrics (view st') = JUndefined /\
    distributionData (view st') = distributionData (view loaded_session).
Proof.
  eexists. split; [vm_compute; reflexivity|].
  destruct (X4_metrics_update_missing_keys loaded_session 7 0%nat update_without_snapshot _
              eq_refl eq_refl ltac:(vm_compute; reflexivity)) as [_ Hsnap].
  destruct (Hsnap (JObj [("last_hour", counts 1 0 0 1)]) JUndefined eq_refl eq_refl eq_refl)
    as [Hv _].
  rewrite Hv. split; reflexivity.
Defined.

Lemma step_metrics_update_ok st dt i message snapshot p n u :
  sockets st !! i = Some OPEN -> mounted st = true ->
  is_metrics_update message snapshot ->
  JS.get snapshot "positive" = Normal p ->
  JS.get snapshot "negative" = Normal n ->
  JS.get snapshot "neutral" = Normal u ->
  step st dt (SockMessage i (JSONText message)) =
    Some (with_view (put_distributionData (distribution_rows p n u))
            (with_view (put_metrics snapshot)
               (with_view (put_lastUpdate (clock st + dt)) (tick dt st)))).
Proof.
  intros Hopen Hm (Hty & d & Hd & Hsnap) Hp Hn Hu.
  unfold step. state_simpl. rewrite Hopen.
  unfold dispatch, onmessage, JSON_parse, bind, ret, read, lift.
  rewrite Hty. cbn [JS.strict_eq_str String.eqb Ascii.eqb Bool.eqb].
  rewrite Hd, Hsnap. unfold_handlers. simpl. rewrite Hm. simpl.
  rewrite Hp, Hn, Hu. simpl. repeat (rewrite Hm; state_simpl). reflexivity.
Qed.

(** X5: when a [metrics_update] frame arrives between the first and the
    last response of the snapshot, the end of the snapshot puts its own,
    older counts back into [metrics], while the distribution rows and
    [lastUpdate] stay those of the frame. *)
Theorem X5_late_snapshot_overwrites_push
    (t0 d0 d1 d2 d3 d4 : N) (distData dist t p n u : JSValue)
    (message snapshot p' n' u' : JSValue)
    (trendBody : JSValue) (mapped : list JSValue) (postsBody posts : JSValue) :
  distribution_ok distData dist t p n u ->
  is_metrics_update message snapshot ->
  JS.get snapshot "positive" = Normal p' ->
  JS.get snapshot "negative" = Normal n' ->
  JS.get snapshot "neutral" = Normal u' ->
  trend_ok trendBody mapped ->
  posts_ok postsBody posts ->
  exists st,
    run (mount t0) (overtaken_trace d0 d1 d2 d3 d4 distData message trendBody postsBody)
      = Some st /\
    metrics (view st) =
      JObj [("total", t); ("positive", p); ("negative", n); ("neutral", u)] /\
    distributionData (view st) = distribution_rows p' n' u' /\
    lastUpdate (view st) = t0 + d0 + d1 + d2.
Proof.
  intros Hdist Hupd Hp' Hn' Hu' Htrend Hposts.
  unfold overtaken_trace. cbn [run].
  rewrite (step_open (mount t0) d0 0%nat eq_refl).
  erewrite step_distribution by (reflexivity || eassumption).
  erewrite step_metrics_update_ok by (reflexivity || eassumption).
  erewrite step_trend by (reflexivity || eassumption).
  erewrite step_posts by (reflexivity || eassumption).
  eexists. split; [reflexivity|]. repeat split.
Qed.

Lemma X5_witness :
  exists st,
    run (mount 0)
      (overtaken_trace 10 5 5 5 5 (distribution_response 10 5 5 20)
         (metrics_update_message (counts 12 5 5 22)) sample_trend sample_posts) = Some st /\
    JS.get (metrics (view st)) "total" = Normal (JNum 20) /\
    distributionData (view st) = distribution_rows (JNum 12) (JNum 5) (JNum 5).
Proof.
  destruct (X5_late_snapshot_overwrites_push 0 10 5 5 5 5
              (distribution_response 10 5 5 20) (sentiment_counts 10 5 5)
              (JNum 20) (JNum 10) (JNum 5) (JNum 5)
              (metrics_update_message (counts 12 5 5 22)) (counts 12 5 5 22)
              (JNum 12) (JNum 5) (JNum 5)
              sample_trend [trend_point "2025-01-01T10:00:00" 1 1 0]
              sample_posts (JArr [post 2; post 1]))
    as (st & Hrun & Hmetrics & Hrows & _).
  - repeat split.
  - split; [reflexivity|]. eexists. split; reflexivity.
  - reflexivity.
  - reflexivity.
  - reflexivity.
  - eexists. split; reflexivity.
  - reflexivity.
  - exists st. split; [exact Hrun|]. split; [rewrite Hmetrics; reflexivity | exact Hrows].
Defined.

(** ** More on the snapshot *)

(** X6: no callback but [onmessage] lets an exception escape.  An open
    event logs its greeting, a close event, a timer and an unmount log
    nothing, and a response either logs nothing or ends [fetchData] with
    exactly one logged error, no request sent after it; a rejected request
    leaves the view model as it was. *)
Theorem X6_only_onmessage_throws
    (st : Dashboard) (dt : N) (ev : Event) (st' : Dashboard) :
  step st dt ev = Some st' ->
  (forall i data, ev <> SockMessage i data) ->
  console st' = console st \/
  console st' = console st ++ [ConsoleLog "Connected to WebSocket"] \/
  (exists err ep r,
      ev = Response ep r /\
      console st' = console st ++ [ConsoleError "Failed to fetch initial data:" err] /\
      fetch st' = FetchIdle /\ requests st' = requests st /\
      (r = None -> view st' = view st)).
Proof.
  intros Hs Hne.
  destruct ev as [i|i data|i| |ep r|].
  - right; left. crush_step; reflexivity.
  - destruct (Hne i data eq_refl).
  - left. crush_step; reflexivity.
  - left. crush_step; reflexivity.
  - destruct r as [body|].
    + crush_step; try (left; reflexivity);
        right; right; eexists _, _, _; (split; [reflexivity|]);
        repeat split; discriminate.
    + crush_step; right; right; eexists _, _, _; (split; [reflexivity|]);
        repeat split.
  - left. crush_step; reflexivity.
Qed.

Lemma X6_witness :
  exists st',
    step (mount 0) 5 (Response Distribution24h (Some distribution_without_counts)) = Some st' /\
    console st' = [ConsoleError "Failed to fetch initial data:" TypeError] /\
    fetch st' = FetchIdle /\ requests st' = [Distribution24h].
Proof.
  eexists. split; [vm_compute; reflexivity|].
  destruct (X6_only_onmessage_throws (mount 0) 5
              (Response Distribution24h (Some distribution_without_counts)) _
              ltac:(vm_compute; reflexivity) ltac:(intros; discriminate))
    as [H|[H|(err & ep & r & _ & _ & Hf & Hr & _)]].
  - discriminate H.
  - discriminate H.
  - split; [reflexivity|]. split; [exact Hf | exact Hr].
Defined.

(** X7: the posts of the snapshot are stored as they are received, without
    any truncation on the client, so the feed may exceed 50 entries then;
    the next [new_post] frame brings it back to the first 50. *)
Theorem X7_snapshot_posts_stored_as_received
    (st : Dashboard) (dt : N) (distData dist t p n u body posts : JSValue)
    (st' : Dashboard) :
  mounted st = true ->
  fetch st = AwaitPosts distData dist ->
  distribution_ok distData dist t p n u ->
  JS.get body "posts" = Normal posts ->
  step st dt (Response Posts50 (Some body)) = Some st' ->
  recentPosts (view st') = posts /\
  (forall items dt' i message post st'',
      posts = JArr items -> is_new_post message post ->
      step st' dt' (SockMessage i (JSONText message)) = Some st'' ->
      recentPosts (view st'') = JArr (firstn 50 (post :: items)) /\
      feed_bounded (recentPosts (view st''))).
Proof.
  intros Hm Hpc Hdist Hposts Hs.
  rewrite (step_posts _ _ _ _ _ _ _ _ _ _ Hpc Hdist Hposts) in Hs.
  injection Hs as <-. unfold when_mounted. rewrite Hm.
  split; [reflexivity|].
  intros items dt' i message post st'' -> Hnew Hs'.
  pose proof (step_message_enabled _ _ _ _ _ Hs') as Hopen.
  erewrite step_new_post in Hs' by (eassumption || reflexivity).
  injection Hs' as <-. split; [reflexivity|].
  eexists. split; [reflexivity|]. unfold JS.slice0. rewrite List.length_firstn. lia.
Qed.

Lemma X7_witness :
  exists st' st'',
    step awaiting_posts_session 5
      (Response Posts50 (Some (posts_response fifty_one_posts))) = Some st' /\
    recentPosts (view st') = JArr fifty_one_posts /\
    length fifty_one_posts = 51%nat /\
    step st' 5 (SockMessage 0%nat (JSONText (new_post_message (post 52)))) = Some st'' /\
    recentPosts (view st'') = JArr (firstn 50 (post 52 :: fifty_one_posts)).
Proof.
  eexists. eexists. split; [vm_compute; reflexivity|].
  destruct (X7_snapshot_posts_stored_as_received awaiting_posts_session 5
              sample_distribution (sentiment_counts 1 1 0)
              (JNum 2) (JNum 1) (JNum 1) (JNum 0)
              (posts_response fifty_one_posts) (JArr fifty_one_posts) _
              eq_refl eq_refl ltac:(repeat split) eq_refl ltac:(vm_compute; reflexivity))
    as [Hfeed Hnext].
  split; [exact Hfeed|]. split; [reflexivity|].
  split; [vm_compute; reflexivity|].
  exact (proj1 (Hnext fifty_one_posts 5 0%nat (new_post_message (post 52)) (post 52) _
                  eq_refl (conj eq_refl eq_refl) ltac:(vm_compute; reflexivity))).
Defined.

(** ** The trend rows *)

Lemma set_field_present k v fs :
  JS.lookup_field k fs = Some v -> JS.set_field k v fs = fs.
Proof.
  induction fs as [|[k' v'] fs IH]; simpl; [discriminate|].
  destruct (String.eqb k k') eqn:E.
  - intros H. injection H as ->. reflexivity.
  - intros H. rewrite (IH H). reflexivity.
Qed.

Lemma set_field_absent k v fs :
  JS.lookup_field k fs = None -> JS.set_field k v fs = fs ++ [(k, v)].
Proof.
  induction fs as [|[k' v'] fs IH]; simpl; [reflexivity|].
  destruct (String.eqb k k') eqn:E; [discriminate|].
  intros H. rewrite (IH H). reflexivity.
Qed.

Lemma trend_item_object fs : trend_item (JObj fs) = Normal (normalised_row fs).
Proof.
  unfold trend_item, normalised_row. simpl.
  destruct (JS.lookup_field "timestamp" fs) as [ts|] eqn:E; simpl.
  - rewrite (set_field_present _ _ _ E). reflexivity.
  - rewrite (set_field_absent _ _ _ E). reflexivity.
Qed.

Lemma trend_item_is_object item m : trend_item item = Normal m -> is_object m = true.
Proof.
  unfold trend_item, and_then. destruct (JS.get item "timestamp"); [|discriminate].
  intros H. injection H as <-. reflexivity.
Qed.

Lemma trend_item_nullish item :
  trend_item item = Throw TypeError <-> nullish item = true.
Proof.
  unfold trend_item, and_then. destruct item; simpl; split; congruence.
Qed.

Lemma map_trend_items rows :
  Forall (fun r => nullish r = false) rows ->
  exists mapped,
    map_throwing trend_item rows = Normal mapped /\
    length mapped = length rows /\
    Forall (fun m => is_object m = true) mapped /\
    (forall i fs, rows !! i = Some (JObj fs) -> mapped !! i = Some (normalised_row fs)).
Proof.
  induction 1 as [|r rows Hr _ (mapped & Hmap & Hlen & Hobj & Hrows)].
  - exists []. repeat split; [constructor | intros i fs H; destruct i; discriminate H].
  - destruct (trend_item r) as [m|e] eqn:Hm.
    + exists (m :: mapped). cbn [map_throwing]. rewrite Hm, Hmap. simpl.
      split; [reflexivity|]. split; [congruence|]. split.
      * constructor; [exact (trend_item_is_object _ _ Hm) | exact Hobj].
      * intros [|i] fs Hi; simpl in *.
        -- injection Hi as ->. rewrite trend_item_object in Hm. congruence.
        -- exact (Hrows i fs Hi).
    + exfalso. destruct r; simpl in *; try discriminate;
        unfold trend_item in Hm; simpl in Hm; discriminate.
Qed.

Lemma map_trend_items_throw rows :
  Exists (fun r => nullish r = true) rows ->
  map_throwing trend_item rows = Throw TypeError.
Proof.
  induction 1 as [r rows Hr|r rows _ IH]; cbn [map_throwing].
  - rewrite (proj2 (trend_item_nullish r) Hr). reflexivity.
  - destruct (trend_item r) as [m|e] eqn:Hm; simpl.
    + rewrite IH. reflexivity.
    + destruct r; unfold trend_item in Hm; simpl in Hm; congruence.
Qed.

(** X8: the trend mapping of [fetchData].  When no row is [undefined] or
    [null] it yields as many rows, all objects; an object row with a
    [timestamp] is unchanged and one without gets [timestamp: undefined].
    When some row is [undefined] or [null] it throws a [TypeError]. *)
Theorem X8_trend_rows_normalised (rows : list JSValue) :
  (Forall (fun r => nullish r = false) rows ->
   exists mapped,
     array_map trend_item (JArr rows) = Normal mapped /\
     length mapped = length rows /\
     Forall (fun m => is_object m = true) mapped /\
     (forall i fs, rows !! i = Some (JObj fs) -> mapped !! i = Some (normalised_row fs))) /\
  (Exists (fun r => nullish r = true) rows ->
   array_map trend_item (JArr rows) = Throw TypeError).
Proof.
  split; [apply map_trend_items | apply map_trend_items_throw].
Qed.

Lemma X8_witness :
  array_map trend_item
    (JArr [trend_point "2025-01-01T10:00:00" 1 1 0; row_without_timestamp]) =
    Normal [trend_point "2025-01-01T10:00:00" 1 1 0;
            JObj [("positive_count", JNum 3); ("timestamp", JUndefined)]] /\
  array_map trend_item (JArr [row_without_timestamp; JNull]) = Throw TypeError.
Proof.
  destruct (X8_trend_rows_normalised
              [trend_point "2025-01-01T10:00:00" 1 1 0; row_without_timestamp])
    as [Hok _].
  destruct (X8_trend_rows_normalised [row_without_timestamp; JNull]) as [_ Hbad].
  split.
  - destruct Hok as (mapped & Hmap & _); [repeat constructor|].
    rewrite Hmap. vm_compute in Hmap. injection Hmap as <-. reflexivity.
  - apply Hbad. apply Exists_cons_tl, Exists_cons_hd. reflexivity.
Defined.

(** ** The socket in use *)

Lemma chain_lookup k s i x :
  (replicate k CLOSED ++ [s]) !! i = Some x ->
  (x = CLOSED /\ (i < k)%nat) \/ (i = k /\ x = s).
Proof.
  intros H. destruct (Nat.lt_ge_cases i k) as [Hlt|Hge].
  - rewrite lookup_app_l in H by (rewrite length_replicate; exact Hlt).
    apply lookup_replicate in H. left. tauto.
  - rewrite lookup_app_r in H by (rewrite length_replicate; exact Hge).
    rewrite length_replicate in H.
    destruct (i - k)%nat as [|j] eqn:E; simpl in H; [|destruct j; discriminate].
    injection H as <-. right. split; [lia | reflexivity].
Qed.

Lemma chain_insert k s x :
  <[k:=x]> (replicate k CLOSED ++ [s]) = replicate k CLOSED ++ [x].
Proof.
  rewrite insert_app_r_alt by (rewrite length_replicate; lia).
  rewrite length_replicate, Nat.sub_diag. reflexivity.
Qed.

Lemma chain_last k s : last (replicate k CLOSED ++ [s]) = Some s.
Proof. apply last_snoc. Qed.

Lemma chain_snoc k : replicate k CLOSED ++ [CLOSED] = replicate (S k) CLOSED.
Proof.
  induction k as [|k IH]; simpl; [reflexivity|]. rewrite IH. reflexivity.
Qed.

Lemma chain_close k s :
  close_socket k (replicate k CLOSED ++ [s]) =
    replicate k CLOSED ++ [match s with CONNECTING | OPEN => CLOSING | _ => s end].
Proof.
  unfold close_socket.
  rewrite lookup_app_r by (rewrite length_replicate; lia).
  rewrite length_replicate, Nat.sub_diag. simpl.
  destruct s; try reflexivity; apply chain_insert.
Qed.

Lemma step_message_connection st dt i data st' :
  step st dt (SockMessage i data) = Some st' ->
  timers st' = timers st /\ ws_current st' = ws_current st /\
  connectionStatus (view st') = connectionStatus (view st) /\
  ((mounted st' = mounted st /\ sockets st' = sockets st) \/
   (mounted st' = false /\ sockets st' = closed_by_cleanup st)).
Proof.
  intros Hs. unfold closed_by_cleanup.
  crush_step; repeat split; auto.
Qed.

Lemma step_response_connection st dt ep r st' :
  step st dt (Response ep r) = Some st' ->
  timers st' = timers st /\ ws_current st' = ws_current st /\
  connectionStatus (view st') = connectionStatus (view st) /\
  mounted st' = mounted st /\ sockets st' = sockets st.
Proof. intros Hs. crush_step; repeat split; congruence. Qed.

Lemma step_unmount st dt st' :
  step st dt Unmount = Some st' ->
  timers st' = timers st /\ ws_current st' = ws_current st /\
  mounted st' = false /\ sockets st' = closed_by_cleanup st.
Proof.
  intros Hs. unfold closed_by_cleanup. crush_step; repeat split; congruence.
Qed.

Lemma socket_chain_cleanup st sockets' timers' :
  socket_chain st -> sockets' = closed_by_cleanup st -> timers' = timers st ->
  exists k s,
    sockets' = replicate k CLOSED ++ [s] /\ ws_current st = Some k /\
    ((timers' = [] /\ live s = true) \/ (exists due, timers' = [due] /\ s = CLOSED)).
Proof.
  intros (k & s & Hsock & Hcur & Hcase) -> ->. unfold closed_by_cleanup.
  rewrite Hcur, Hsock, chain_close.
  eexists k, _. split; [reflexivity|]. split; [reflexivity|].
  destruct Hcase as [[Ht Hl]|(due & Ht & ->)].
  - left. split; [exact Ht|]. destruct s; try reflexivity; discriminate.
  - right. exists due. split; [exact Ht | reflexivity].
Qed.

Lemma step_open_connection st dt i st' :
  step st dt (SockOpen i) = Some st' ->
  sockets st !! i = Some CONNECTING /\
  sockets st' = <[i:=OPEN]> (sockets st) /\
  timers st' = timers st /\ ws_current st' = ws_current st /\
  mounted st' = mounted st /\
  (mounted st = true -> connectionStatus (view st') = connected).
Proof. intros Hs. crush_step; repeat split; congruence. Qed.

Lemma step_close_connection st dt i st' :
  step st dt (SockClose i) = Some st' ->
  (exists s, sockets st !! i = Some s /\ live s = true) /\
  sockets st' = <[i:=CLOSED]> (sockets st) /\
  timers st' = timers st ++ [clock st + dt + 3000] /\
  ws_current st' = ws_current st /\ mounted st' = mounted st /\
  (mounted st = true -> connectionStatus (view st') = disconnected).
Proof.
  intros Hs. crush_step; (split; [eexists; split; [reflexivity|reflexivity]|]);
    repeat split; congruence.
Qed.

Lemma step_timer_connection st dt st' :
  step st dt TimerFire = Some st' ->
  (exists due rest, timers st = due :: rest /\ timers st' = rest) /\
  sockets st' = sockets st ++ [CONNECTING] /\
  ws_current st' = Some (length (sockets st)) /\
  mounted st' = mounted st /\
  connectionStatus (view st') = connectionStatus (view st).
Proof.
  intros Hs. crush_step. split; [eexists _, _; split; reflexivity|].
  repeat split.
Qed.

Lemma socket_chain_step st dt ev st' :
  socket_chain st -> step st dt ev = Some st' -> socket_chain st'.
Proof.
  intros Hchain Hs. pose proof Hchain as (k & s & Hsock & Hcur & Hcase).
  destruct ev as [i|i data|i| |ep r|].
  - destruct (step_open_connection _ _ _ _ Hs) as (Hi & Hs' & Ht' & Hc' & _).
    rewrite Hsock in Hi. apply chain_lookup in Hi as [[? _]|[-> <-]]; [discriminate|].
    exists k, OPEN. rewrite Hs', Ht', Hc', Hsock, chain_insert.
    split; [reflexivity|]. split; [exact Hcur|].
    destruct Hcase as [[Ht _]|(due & _ & ?)]; [|discriminate].
    left. split; [exact Ht | reflexivity].
  - destruct (step_message_connection _ _ _ _ _ Hs) as (Ht' & Hc' & _ & [[_ Hs']|[_ Hs']]).
    + exists k, s. rewrite Hs', Ht', Hc'. auto.
    + destruct (socket_chain_cleanup st _ _ Hchain Hs' Ht') as (k' & s' & A & B & C).
      exists k', s'. rewrite Hc'. auto.
  - destruct (step_close_connection _ _ _ _ Hs) as ((x & Hi & Hl) & Hs' & Ht' & Hc' & _).
    rewrite Hsock in Hi.
    apply chain_lookup in Hi as [[-> _]|[-> ->]]; [discriminate|].
    exists k, CLOSED. rewrite Hs', Ht', Hc', Hsock, chain_insert.
    split; [reflexivity|]. split; [exact Hcur|].
    destruct Hcase as [[Ht _]|(due & _ & ->)]; [|discriminate].
    right. rewrite Ht. eexists. split; reflexivity.
  - destruct (step_timer_connection _ _ _ Hs)
      as ((due & rest & Ht & Ht') & Hs' & Hc' & _).
    destruct Hcase as [[Hnil _]|(due' & Hone & ->)]; [congruence|].
    exists (S k), CONNECTING. rewrite Hs', Ht', Hc', Hsock.
    rewrite Hone in Ht. injection Ht as _ <-.
    rewrite length_app, length_replicate, chain_snoc. simpl.
    split; [reflexivity|]. split; [f_equal; lia|]. left. split; reflexivity.
  - destruct (step_response_connection _ _ _ _ _ Hs) as (Ht' & Hc' & _ & _ & Hs').
    exists k, s. rewrite Hs', Ht', Hc'. auto.
  - destruct (step_unmount _ _ _ Hs) as (Ht' & Hc' & _ & Hs').
    destruct (socket_chain_cleanup st _ _ Hchain Hs' Ht') as (k' & s' & A & B & C).
    exists k', s'. rewrite Hc'. auto.
Qed.

Lemma mount_socket_chain t0 : socket_chain (mount t0).
Proof.
  exists 0%nat, CONNECTING. split; [reflexivity|]. split; [reflexivity|].
  left. split; reflexivity.
Qed.

Lemma reachable_socket_chain st : reachable st -> socket_chain st.
Proof.
  intros (t0 & tr & Hrun).
  apply (run_invariant socket_chain (fun _ => True)) with (tr := tr) (st := mount t0).
  - intros s dt ev s' H _ Hs. exact (socket_chain_step _ _ _ _ H Hs).
  - apply Forall_forall. intros; exact I.
  - apply mount_socket_chain.
  - exact Hrun.
Qed.

(** X9: in every state of a session [ws.current] is the newest socket,
    every older socket is closed, and when the newest is closed too a retry
    is pending. *)
Theorem X9_current_socket_is_the_newest (st : Dashboard) :
  reachable st ->
  exists k s,
    sockets st = replicate k CLOSED ++ [s] /\
    ws_current st = Some k /\
    (forall i x, sockets st !! i = Some x -> live x = true -> i = k) /\
    (live s = false -> exists due, timers st = [due]).
Proof.
  intros Hreach. destruct (reachable_socket_chain st Hreach) as (k & s & Hsock & Hcur & Hcase).
  exists k, s. split; [exact Hsock|]. split; [exact Hcur|]. split.
  - intros i x Hi Hl. rewrite Hsock in Hi.
    apply chain_lookup in Hi as [[-> _]|[-> _]]; [discriminate | reflexivity].
  - intros Hdead. destruct Hcase as [[_ Hl]|(due & Ht & _)]; [congruence | eauto].
Qed.

Lemma X9_witness :
  sockets retrying_session = replicate 1 CLOSED ++ [CONNECTING] /\
  ws_current retrying_session = Some 1%nat.
Proof.
  destruct (X9_current_socket_is_the_newest retrying_session) as (k & s & Hsock & Hcur & _).
  - exists 0, outage_trace. vm_compute. reflexivity.
  - vm_compute in Hcur. injection Hcur as <-.
    split; [reflexivity | reflexivity].
Defined.

Lemma status_agrees_step st dt ev st' :
  socket_chain st -> status_agrees st -> step st dt ev = Some st' -> status_agrees st'.
Proof.
  intros (k & s & Hsock & Hcur & Hcase) Hagree Hs Hm'. unfold status_agrees in Hagree.
  destruct ev as [i|i data|i| |ep r|].
  - destruct (step_open_connection _ _ _ _ Hs) as (Hi & Hs' & _ & _ & Hm & Hc).
    rewrite Hm in Hm'. rewrite (Hc Hm'), Hs'.
    rewrite Hsock in Hi. apply chain_lookup in Hi as [[? _]|[-> <-]]; [discriminate|].
    rewrite Hsock, chain_insert. apply chain_last.
  - destruct (step_message_connection _ _ _ _ _ Hs) as (_ & _ & Hc & [[Hm Hs']|[Hm _]]);
      [|congruence].
    rewrite Hm in Hm'. rewrite Hc, Hs'. exact (Hagree Hm').
  - destruct (step_close_connection _ _ _ _ Hs) as ((x & Hi & Hl) & Hs' & _ & _ & Hm & Hc).
    rewrite Hm in Hm'. rewrite (Hc Hm'), Hs'.
    rewrite Hsock in Hi. apply chain_lookup in Hi as [[-> _]|[-> ->]]; [discriminate|].
    rewrite Hsock, chain_insert, chain_last. discriminate.
  - destruct (step_timer_connection _ _ _ Hs) as ((due & rest & Ht & _) & Hs' & _ & Hm & Hc).
    rewrite Hm in Hm'. specialize (Hagree Hm'). rewrite Hc, Hs'.
    destruct Hcase as [[Hnil _]|(due' & _ & ->)]; [congruence|].
    rewrite Hsock, chain_last in Hagree. rewrite last_snoc.
    destruct (connectionStatus (view st)).
    + destruct k as [|[|k]]; discriminate Hagree.
    + discriminate Hagree.
    + discriminate.
  - destruct (step_response_connection _ _ _ _ _ Hs) as (_ & _ & Hc & Hm & Hs').
    rewrite Hm in Hm'. rewrite Hc, Hs'. exact (Hagree Hm').
  - destruct (step_unmount _ _ _ Hs) as (_ & _ & Hm & _). congruence.
Qed.

Lemma reachable_status_agrees st : reachable st -> status_agrees st.
Proof.
  intros (t0 & tr & Hrun).
  apply (run_invariant (fun s => socket_chain s /\ status_agrees s) (fun _ => True))
    with (tr := tr) (st := mount t0).
  - intros s dt ev s' [Hc Ha] _ Hs.
    split; [exact (socket_chain_step _ _ _ _ Hc Hs) | exact (status_agrees_step _ _ _ _ Hc Ha Hs)].
  - apply Forall_forall. intros; exact I.
  - split; [apply mount_socket_chain | intros _; reflexivity].
  - exact Hrun.
Qed.

(** X10: in every state of a session, while the component is mounted, the
    header shows the green icon exactly when the newest socket is open; the
    label [connecting] is shown only while the first socket connects. *)
Theorem X10_indicator_agrees_with_socket (st : Dashboard) :
  reachable st -> mounted st = true ->
  (icon (connection_indicator (connectionStatus (view st))) = Wifi <->
   last (sockets st) = Some OPEN) /\
  (connectionStatus (view st) = connecting -> sockets st = [CONNECTING]).
Proof.
  intros Hreach Hm. pose proof (reachable_status_agrees st Hreach Hm) as Hagree.
  destruct (connectionStatus (view st)); simpl; split;
    try (split; [discriminate || (intros _; exact Hagree) | congruence || reflexivity]);
    try (intros; assumption || discriminate).
  - split; [discriminate|]. intros H. rewrite Hagree in H. discriminate H.
Qed.

Lemma X10_witness :
  icon (connection_indicator (connectionStatus (view retrying_session))) = WifiOff /\
  last (sockets retrying_session) <> Some OPEN.
Proof.
  destruct (X10_indicator_agrees_with_socket retrying_session) as [Hiff _].
  - exists 0, outage_trace. vm_compute. reflexivity.
  - reflexivity.
  - split; [reflexivity|]. intros H. apply Hiff in H. discriminate H.
Defined.

(** ** The distribution chart *)

Lemma or_else_count v k :
  as_count v = Some k -> Coerce.or_else v (JNum 0) = JNum k.
Proof.
  destruct v; simpl; try discriminate; intros H; injection H as <-; try reflexivity.
  unfold Coerce.or_else. destruct n; reflexivity.
Qed.

Lemma DistributionChart_counts data vp vn vu p n u :
  JS.get data "positive" = Normal vp -> as_count vp = Some p ->
  JS.get data "negative" = Normal vn -> as_count vn = Some n ->
  JS.get data "neutral" = Normal vu -> as_count vu = Some u ->
  DistributionChart data =
    Rendered (match positive_rows p n u with
              | [] => NoDataYet
              | rows => Pie rows (Z.max 0 p + Z.max 0 n + Z.max 0 u)
              end).
Proof.
  intros Hp Cp Hn Cn Hu Cu.
  unfold DistributionChart, chart_rows. rewrite Hp, Hn, Hu. simpl.
  rewrite (or_else_count _ _ Cp), (or_else_count _ _ Cn), (or_else_count _ _ Cu).
  unfold positive_rows. simpl.
  destruct (Z.ltb_spec 0 p), (Z.ltb_spec 0 n), (Z.ltb_spec 0 u); simpl;
    repeat match goal with
    | |- context [(?x =? 0)%Z] => destruct (Z.eqb_spec x 0); [lia|]
    end;
    try reflexivity; do 2 f_equal; lia.
Qed.



(** ** The trend chart *)

Lemma lookup_set_field_eq k v fs : JS.lookup_field k (JS.set_field k v fs) = Some v.
Proof.
  induction fs as [|[k' v'] fs IH]; simpl.
  - rewrite String.eqb_refl. reflexivity.
  - destruct (String.eqb k k') eqn:E; simpl; rewrite E; [reflexivity | exact IH].
Qed.

Lemma lookup_set_field_ne k k' v fs :
  k <> k' -> JS.lookup_field k' (JS.set_field k v fs) = JS.lookup_field k' fs.
Proof.
  intros Hne. induction fs as [|[k0 v0] fs IH]; simpl.
  - destruct (String.eqb_spec k' k); [congruence | reflexivity].
  - destruct (String.eqb_spec k k0) as [->|Hk]; simpl.
    + destruct (String.eqb_spec k' k0); [congruence | reflexivity].
    + destruct (String.eqb k' k0); [reflexivity | exact IH].
Qed.

Lemma format_row_plottable time_of fs :
  primitive (timestamp_of fs) = true ->
  format_row time_of (JObj fs) = Rendered (formatted_row time_of fs).
Proof.
  intros Hprim. unfold format_row, formatted_row. simpl.
  fold (timestamp_of fs). destruct (timestamp_of fs); try discriminate; reflexivity.
Qed.



Lemma map_rendering_plottable time_of rows :
  Forall plottable rows ->
  exists formatted,
    map_rendering (format_row time_of) rows = Rendered formatted /\
    length formatted = length rows /\
    (forall i fs, rows !! i = Some (JObj fs) ->
                  formatted !! i = Some (formatted_row time_of fs)).
Proof.
  induction 1 as [|row rows (fs & -> & Hprim) _ (formatted & Hmap & Hlen & Hrows)].
  - exists []. repeat split. intros i fs H. destruct i; discriminate H.
  - exists (formatted_row time_of fs :: formatted). cbn [map_rendering].
    rewrite (format_row_plottable _ _ Hprim), Hmap. simpl.
    split; [reflexivity|]. split; [congruence|].
    intros [|i] fs' Hi; simpl in *; [congruence | exact (Hrows i fs' Hi)].
Qed.





(** X13: the trend chart draws one row per row it is given, in the same
    order; each drawn row has the [time] label of its timestamp and, under
    every other name, the property of the row it comes from. *)
Theorem X13_trend_rows_keep_their_fields
    (time_of : JSValue -> string) (row : JSValue) (rows : list JSValue) :
  Forall plottable (row :: rows) ->
  exists formatted,
    SentimentChart time_of (row :: rows) = Rendered (LineChart formatted) /\
    length formatted = length (row :: rows) /\
    (forall i fs,
        (row :: rows) !! i = Some (JObj fs) ->
        exists fs',
          formatted !! i = Some (JObj fs') /\
          JS.lookup_field "time" fs' = Some (JStr (time_of (timestamp_of fs))) /\
          (forall k, k <> "time" -> JS.lookup_field k fs' = JS.lookup_field k fs)).
Proof.
  intros Hplot.
  destruct (map_rendering_plottable time_of (row :: rows) Hplot)
    as (formatted & Hmap & Hlen & Hrows).
  exists formatted. unfold SentimentChart. rewrite Hmap. simpl.
  split; [reflexivity|]. split; [exact Hlen|].
  intros i fs Hi. eexists. split; [exact (Hrows i fs Hi)|]. split.
  - apply lookup_set_field_eq.
  - intros k Hk. apply lookup_set_field_ne. congruence.
Qed.

Lemma X13_witness :
  SentimentChart clock_label [trend_point "2025-01-01T10:00:00" 1 1 0] =
    Rendered (LineChart
      [JObj [("timestamp", JStr "2025-01-01T10:00:00"); ("positive_count", JNum 1);
             ("negative_count", JNum 1); ("neutral_count", JNum 0);
             ("time", JStr "10:00")]]).
Proof.
  destruct (X13_trend_rows_keep_their_fields clock_label
              (trend_point "2025-01-01T10:00:00" 1 1 0) [])
    as (formatted & Hchart & _).
  - constructor; [|constructor]. eexists. split; reflexivity.
  - rewrite Hchart. vm_compute in Hchart. injection Hchart as <-. reflexivity.
Defined.

(** ** The cards *)

Lemma metric_cards_balanced localised m :
  balanced m ->
  exists p n u t,
    metric_cards localised m =
      Rendered [("Total Posts", localised t); ("Positive", localised p);
                ("Negative", localised n); ("Neutral", localised u)] /\
    (p + n + u = t)%Z /\
    exists v, DistributionChart m = Rendered v.
Proof.
  intros (p & n & u & t & Hp & Hn & Hu & Ht & Hsum).
  exists p, n, u, t. split; [|split; [exact Hsum|]].
  - unfold metric_cards, metric_card. rewrite Ht, Hp, Hn, Hu. reflexivity.
  - eexists.
    exact (DistributionChart_counts m (JNum p) (JNum n) (JNum u) p n u
             Hp eq_refl Hn eq_refl Hu eq_refl).
Qed.

(** X14: in every state of a session whose server payloads are balanced
    the four cards render, showing the total and the three counts, which
    add up; the distribution chart renders as well. *)
Theorem X14_balanced_session_renders
    (localised : Z -> string) (t0 : N) (tr : Trace) (st : Dashboard) :
  Forall (fun e => payload_balanced (snd e)) tr ->
  run (mount t0) tr = Some st ->
  exists p n u t,
    metric_cards localised (metrics (view st)) =
      Rendered [("Total Posts", localised t); ("Positive", localised p);
                ("Negative", localised n); ("Neutral", localised u)] /\
    (p + n + u = t)%Z /\
    exists v, DistributionChart (metrics (view st)) = Rendered v.
Proof.
  intros Hpay Hrun. apply metric_cards_balanced.
  apply (run_invariant metrics_inv payload_balanced metrics_inv_step tr (mount t0) st
           Hpay (mount_metrics_inv t0) Hrun).
Qed.

Lemma balanced_updated_trace : Forall (fun e => payload_balanced (snd e)) updated_trace.
Proof.
  unfold updated_trace, loaded_trace. cbn [app].
  repeat (apply Forall_cons; split); try exact I; try apply Forall_nil.
  - exists (sentiment_counts 1 1 0). split; [reflexivity|].
    exists 1%Z, 1%Z, 0%Z, 2%Z. repeat split.
  - simpl. discriminate.
  - intros _. exists (counts 12 5 5 22). split.
    + split; [reflexivity|]. eexists. split; reflexivity.
    + apply (balanced_counts 12 5 5).
  - exact I.
Qed.

Lemma X14_witness :
  metric_cards plain_number (metrics (view updated_session)) =
    Rendered [("Total Posts", "+"); ("Positive", "+"); ("Negative", "+"); ("Neutral", "+")].
Proof.
  destruct (X14_balanced_session_renders plain_number 0 updated_trace updated_session
              balanced_updated_trace ltac:(vm_compute; reflexivity))
    as (p & n & u & t & Hcards & _).
  pose proof Hcards as Hshown. vm_compute in Hshown.
  rewrite Hcards. exact (eq_sym Hshown).
Defined.



